(** * Workout transcription service: parsing heuristics and workbook layout

    Shallow embedding of [src/app.py]: the Table Builder
    ([transcribe_text_to_table]), the Title/Date Extractor
    ([extract_workout_title_and_date]), the Workbook Composer
    ([create_excel]) and the HTTP handler ([index]).

    Python [str] values are modelled as lists of characters.  A character
    is a code point in the range U+0000..U+00FF, carried by [ascii]; the
    character classes below are the ones CPython uses on that range. *)

From Stdlib Require Import String Ascii DecimalString List Bool Arith Lia ZArith.
From Stdlib Require Import Sorted.
Import ListNotations.

Local Open Scope string_scope.
Local Open Scope nat_scope.
Local Open Scope list_scope.

(** ** Strings *)

Definition str := list ascii.

Definition py (s : string) : str := list_ascii_of_string s.
Coercion py : string >-> str.

Module Chr.

Definition code (c : ascii) : nat := nat_of_ascii c.

Definition between (lo hi n : nat) : bool := (lo <=? n) && (n <=? hi).

(** [c.isspace()]: TAB..CR, FS..US, SPACE, NEL and NBSP. *)
Definition isspace (c : ascii) : bool :=
  let n := code c in
  between 9 13 n || between 28 32 n || (n =? 133) || (n =? 160).

(** The ten characters ['0'..'9']. *)
Definition isdecimal (c : ascii) : bool := between 48 57 (code c).

(** [c.isdigit()]: the decimal digits and the superscripts U+00B2,
    U+00B3 and U+00B9. *)
Definition isdigit (c : ascii) : bool :=
  let n := code c in
  isdecimal c || (n =? 178) || (n =? 179) || (n =? 185).

(** [c.lower()]: ['A'..'Z'] and U+00C0..U+00DE except the multiplication
    sign U+00D7 move up by 32. *)
Definition lower (c : ascii) : ascii :=
  let n := code c in
  if between 65 90 n || (between 192 222 n && negb (n =? 215))
  then ascii_of_nat (n + 32) else c.

End Chr.

Module Str.

Definition is_empty (s : str) : bool :=
  match s with [] => true | _ :: _ => false end.

(** [c in s] for a one-character [c]. *)
Definition char_in (c : ascii) (s : str) : bool :=
  existsb (Ascii.eqb c) s.

Fixpoint starts_with (p s : str) : bool :=
  match p, s with
  | [], _ => true
  | _ :: _, [] => false
  | a :: p', b :: s' => Ascii.eqb a b && starts_with p' s'
  end.

(** [sub in s]. *)
Fixpoint str_in (sub s : str) : bool :=
  starts_with sub s ||
  match s with
  | [] => false
  | _ :: s' => str_in sub s'
  end.

(** [s.replace(old, new)] for one-character [old] and [new]. *)
Definition replace (old new : ascii) (s : str) : str :=
  map (fun c => if Ascii.eqb c old then new else c) s.

(** [s.split(sep)] for a one-character [sep]: never empty, the pieces
    between consecutive separators, empty pieces kept. *)
Fixpoint split (sep : ascii) (s : str) : list str :=
  match s with
  | [] => [[]]
  | c :: s' =>
      if Ascii.eqb c sep then [] :: split sep s'
      else match split sep s' with
           | [] => [[c]]
           | p :: ps => (c :: p) :: ps
           end
  end.

Fixpoint lstrip (s : str) : str :=
  match s with
  | [] => []
  | c :: s' => if Chr.isspace c then lstrip s' else s
  end.

Definition rstrip (s : str) : str := rev (lstrip (rev s)).

(** [s.strip()]. *)
Definition strip (s : str) : str := rstrip (lstrip s).

(** [s.isdigit()]: non-empty and every character is a digit. *)
Definition isdigit (s : str) : bool :=
  negb (is_empty s) && forallb Chr.isdigit s.

(** [s.lower()]. *)
Definition lower (s : str) : str := map Chr.lower s.

(** [any(c.isdigit() for c in s)]. *)
Definition any_digit (s : str) : bool := existsb Chr.isdigit s.

End Str.

(** ** Table Builder *)

Definition newline : ascii := "010".

(** One table row as the code lays it out:
    [[exercise] + sets + [extra_info]]. *)
Definition Row := list str.

(** [sets = parts[1].strip().split('/')] followed by
    [[s.strip() for s in sets if s.strip().isdigit() or s.strip() == '']]. *)
Definition keep_piece (s : str) : bool :=
  Str.isdigit (Str.strip s) || Str.is_empty (Str.strip s).

Definition set_pieces (part : str) : list str :=
  map Str.strip (filter keep_piece (Str.split "/" (Str.strip part))).

(** First loop of [transcribe_text_to_table]: one iteration, threading
    [max_sets]. *)
Definition pass1_step (max_sets : nat) (line : str) : nat :=
  let line := Str.replace "." ":" line in
  if Str.char_in "/" line then
    let parts := Str.split ":" line in
    if length parts <? 2 then max_sets
    else
      let sets := set_pieces (nth 1 parts []) in
      Nat.max max_sets (length sets)
  else max_sets.

(** [while len(sets) < max_sets: sets.append('')]; the loop runs
    [max_sets - len(sets)] times. *)
Fixpoint pad_loop (iterations : nat) (sets : list str) : list str :=
  match iterations with
  | O => sets
  | S k => pad_loop k (sets ++ [[]])
  end.

Definition pad_sets (sets : list str) (max_sets : nat) : list str :=
  pad_loop (max_sets - length sets) sets.

(** [extra_info = ""], then under [if '(' in parts[1]]:
    [parts[1].split('(')[1].split(')')[0]]. *)
Definition extra_info_of (part : str) : str :=
  if Str.char_in "(" part
  then nth 0 (Str.split ")" (nth 1 (Str.split "(" part) [])) []
  else [].

Definition line_row (max_sets : nat) (parts : list str) : Row :=
  let exercise := Str.strip (nth 0 parts []) in
  let sets := pad_sets (set_pieces (nth 1 parts [])) max_sets in
  let extra_info := extra_info_of (nth 1 parts []) in
  let row := exercise :: sets in
  row ++ [if Str.is_empty extra_info then [] else extra_info].

(** Second loop, one iteration, threading [data]. *)
Definition pass2_step (max_sets : nat) (data : list Row) (line : str)
  : list Row :=
  let line := Str.replace "." ":" line in
  if Str.char_in "/" line then
    let parts := Str.split ":" line in
    if length parts <? 2 then data
    else data ++ [line_row max_sets parts]
  else data.

Definition transcribe_lines (lines : list str) : list Row * nat :=
  let max_sets := fold_left pass1_step lines 0 in
  let data := fold_left (pass2_step max_sets) lines [] in
  (data, max_sets).

Definition transcribe_text_to_table (text : str) : list Row * nat :=
  transcribe_lines (Str.split newline text).

(** Reading a row back: the exercise cell, the set cells, the note cell. *)
Definition row_exercise (r : Row) : str := hd [] r.
Definition row_sets (r : Row) : list str := removelast (tl r).
Definition row_note (r : Row) : str := last r [].

(** ** Title/Date Extractor *)

Definition months : list str :=
  map py ["jan"; "feb"; "mar"; "apr"; "may"; "jun";
          "jul"; "aug"; "sep"; "oct"; "nov"; "dec"].

(** The test guarding [workout_date = line.strip()]. *)
Definition looks_like_date (line : str) : bool :=
  let line_lower := Str.strip (Str.lower line) in
  Str.str_in "date" line_lower
  || existsb (fun month => Str.str_in month line_lower) months
  || Str.any_digit line_lower.

(** The part of the title test that only reads the line:
    no digit and no ['/']. *)
Definition looks_like_title (line : str) : bool :=
  let line_lower := Str.strip (Str.lower line) in
  negb (Str.any_digit line_lower) && negb (Str.char_in "/" line_lower).

Record Header := { workout_title : str; workout_date : str }.

(** The two assignments of one loop iteration. *)
Definition scan_step (st : Header) (line : str) : Header :=
  let date :=
    if looks_like_date line then Str.strip line else workout_date st in
  let title :=
    if Str.is_empty (workout_title st) && looks_like_title line
    then Str.strip line else workout_title st in
  {| workout_title := title; workout_date := date |}.

(** [if workout_title and workout_date: break]. *)
Definition both_found (st : Header) : bool :=
  negb (Str.is_empty (workout_title st))
  && negb (Str.is_empty (workout_date st)).

Fixpoint scan_lines (st : Header) (lines : list str) : Header :=
  match lines with
  | [] => st
  | line :: rest =>
      let st' := scan_step st line in
      if both_found st' then st' else scan_lines st' rest
  end.

Definition header_label (st : Header) : str :=
  let title :=
    if Str.is_empty (workout_title st) then py "Workout"
    else workout_title st in
  let date :=
    if Str.is_empty (workout_date st) then py "Unknown Date"
    else workout_date st in
  date ++ py " - " ++ title.

Definition scan_text (text : str) : Header :=
  scan_lines {| workout_title := []; workout_date := [] |}
             (Str.split newline text).

Definition extract_workout_title_and_date (text : str) : str :=
  header_label (scan_text text).

(** ** Numeric conversions used by the Workbook Composer

    [int(s)] and [float(s)] on a [str] either return a number or raise
    [ValueError]; [None] stands for that exception.  [float] returns the
    binary64 value nearest to the decimal it reads.  Both first drop
    surrounding white space (TAB..CR, SPACE, NEL, NBSP), accept one
    underscore between two decimal digits, and an optional sign.
    [int] also refuses, with the same exception, a literal of more than
    4300 digits (the interpreter's default limit). *)

Module Num.

Definition isspace (c : ascii) : bool :=
  let n := Chr.code c in
  Chr.between 9 13 n || (n =? 32) || (n =? 133) || (n =? 160).

Fixpoint lstrip (s : str) : str :=
  match s with
  | [] => []
  | c :: s' => if isspace c then lstrip s' else s
  end.

Definition strip (s : str) : str := rev (lstrip (rev (lstrip s))).

Definition is_underscore (c : ascii) : bool := Ascii.eqb c "_".

(** An underscore must follow a decimal digit and precede one. *)
Fixpoint underscores_ok (prev : ascii) (s : str) : bool :=
  match s with
  | [] => negb (is_underscore prev)
  | c :: s' =>
      (if is_underscore c then Chr.isdecimal prev
       else negb (is_underscore prev) || Chr.isdecimal c)
      && underscores_ok c s'
  end.

Definition drop_underscores (s : str) : str :=
  filter (fun c => negb (is_underscore c)) s.

(** Sign flag ([true] for ['-']) and the text after the sign. *)
Definition take_sign (s : str) : bool * str :=
  match s with
  | c :: r =>
      if Ascii.eqb c "-" then (true, r)
      else if Ascii.eqb c "+" then (false, r)
      else (false, s)
  | [] => (false, s)
  end.

(** Longest prefix of decimal digits, and what follows it. *)
Fixpoint span_decimal (s : str) : str * str :=
  match s with
  | [] => ([], [])
  | c :: s' =>
      if Chr.isdecimal c
      then let (ds, r) := span_decimal s' in (c :: ds, r)
      else ([], s)
  end.

Definition digit_value (c : ascii) : Z := Z.of_nat (Chr.code c - 48).

Definition digits_value (ds : str) : Z :=
  fold_left (fun acc c => (10 * acc + digit_value c)%Z) ds 0%Z.

Definition signed (negative : bool) (z : Z) : Z :=
  if negative then (- z)%Z else z.

(** [sys.int_info.default_max_str_digits]. *)
Definition max_str_digits : nat := 4300.

(** [int(s)], base 10.  The digits of the literal are counted without
    sign and underscores, leading zeros included. *)
Definition py_int (s : str) : option Z :=
  let t := strip s in
  if underscores_ok "000" t then
    let (negative, ds) := take_sign (drop_underscores t) in
    if Str.is_empty ds || negb (forallb Chr.isdecimal ds) then None
    else if max_str_digits <? length ds then None
    else Some (signed negative (digits_value ds))
  else None.

(** A binary64 value: [mantissa * 2 ^ exp2] with a sign, an infinity, or
    a NaN.  A finite value is kept in the one form the format gives it:
    zero is [FNum _ 0 0], a normal number has
    [2 ^ 52 <= mantissa < 2 ^ 53] and [exp2 <= 971], a subnormal one has
    [mantissa < 2 ^ 52] and [exp2 = -1074]. *)
Inductive pyfloat :=
| FNum (negative : bool) (mantissa : Z) (exp2 : Z)
| FInf (negative : bool)
| FNaN (negative : bool).

(** The binary64 value nearest to [mantissa * 10 ^ exp10], ties to the
    even mantissa, as the string-to-double conversion of [float]
    computes it.  The decimal is the fraction [N / D]; [fl] is the
    position of its leading bit, [e] the exponent of the last mantissa
    bit, and [N / D] is divided by [2 ^ e] with a rounded quotient. *)
Definition round_binary64 (negative : bool) (mantissa exp10 : Z)
  : pyfloat :=
  (if mantissa =? 0 then FNum negative 0 0
   else
     let N := if 0 <=? exp10 then mantissa * 10 ^ exp10 else mantissa in
     let D := if 0 <=? exp10 then 1 else 10 ^ (- exp10) in
     let k := Z.log2 N - Z.log2 D in
     let reaches :=
       if 0 <=? k then D * 2 ^ k <=? N else D <=? N * 2 ^ (- k) in
     let fl := if reaches then k else k - 1 in
     let e := Z.max (fl - 52) (-1074) in
     let num := if 0 <=? e then N else N * 2 ^ (- e) in
     let den := if 0 <=? e then D * 2 ^ e else D in
     let q := num / den in
     let r := num mod den in
     let up := (den <? 2 * r) || ((2 * r =? den) && Z.odd q) in
     let q := if up then q + 1 else q in
     let carried := q =? 2 ^ 53 in
     let q := if carried then 2 ^ 52 else q in
     let e := if carried then e + 1 else e in
     if 971 <? e then FInf negative
     else if q =? 0 then FNum negative 0 0
     else FNum negative q e)%Z.

Definition str_eqb (a b : str) : bool :=
  if list_eq_dec ascii_dec a b then true else false.

(** ["inf"], ["infinity"] and ["nan"], in any letter case. *)
Definition parse_special (negative : bool) (s : str) : option pyfloat :=
  let l := Str.lower s in
  if str_eqb l "inf" || str_eqb l "infinity" then Some (FInf negative)
  else if str_eqb l "nan" then Some (FNaN negative)
  else None.

Definition is_exp_mark (c : ascii) : bool :=
  Ascii.eqb c "e" || Ascii.eqb c "E".

(** [digits [. digits] | . digits], then an optional exponent. *)
Definition parse_number (negative : bool) (s : str) : option pyfloat :=
  let (ip, r1) := span_decimal s in
  let (fp, r2) :=
    match r1 with
    | c :: r => if Ascii.eqb c "." then span_decimal r else ([], r1)
    | [] => ([], r1)
    end in
  if Str.is_empty ip && Str.is_empty fp then None
  else
    let mantissa := digits_value (ip ++ fp) in
    let scale := Z.of_nat (length fp) in
    match r2 with
    | [] => Some (round_binary64 negative mantissa (- scale)%Z)
    | e :: r3 =>
        if is_exp_mark e then
          let (eneg, r4) := take_sign r3 in
          let (ed, r5) := span_decimal r4 in
          if Str.is_empty ed || negb (Str.is_empty r5) then None
          else Some (round_binary64 negative mantissa
                                    (signed eneg (digits_value ed) - scale)%Z)
        else None
    end.

(** [float(s)]. *)
Definition py_float (s : str) : option pyfloat :=
  let t := strip s in
  if underscores_ok "000" t then
    let (negative, r) := take_sign (drop_underscores t) in
    match parse_special negative r with
    | Some f => Some f
    | None => parse_number negative r
    end
  else None.

End Num.

(** ** Workbook Composer *)

Inductive CellValue :=
| VNone
| VInt (n : Z)
| VFloat (f : Num.pyfloat)
| VStr (s : str).

(** The [try] block of the set columns: [int] when [isdigit()], [float]
    otherwise; [except (ValueError, TypeError): pass] keeps the value.
    Table cells are always [str], so the [isinstance] test holds. *)
Definition coerce_set_value (cell_value : str) : CellValue :=
  let attempt :=
    if Str.isdigit cell_value
    then option_map VInt (Num.py_int cell_value)
    else option_map VFloat (Num.py_float cell_value) in
  match attempt with
  | Some v => v
  | None => VStr cell_value
  end.

Record Cell := {
  cell_value : CellValue;
  cell_bold : bool;
  cell_horizontal : str;
  cell_vertical : str;
  cell_fill : str;
  cell_border : str
}.

Definition blank_cell : Cell :=
  {| cell_value := VNone; cell_bold := false; cell_horizontal := [];
     cell_vertical := []; cell_fill := []; cell_border := [] |}.

(** [(start_row, start_column, end_row, end_column)]. *)
Definition MergeRange := (nat * nat * nat * nat)%type.

(** The sheet as the composer sees it: the cells it has addressed, latest
    binding first, and the merged ranges in the order they were made.
    It records what the composer assigns; an exception openpyxl raises
    on the way (it rejects control characters in cell text, for one) is
    an outcome of the handler's [workbook_error] below. *)
Record Worksheet := {
  ws_cells : list ((nat * nat) * Cell);
  ws_merged : list MergeRange
}.

Definition empty_sheet : Worksheet := {| ws_cells := []; ws_merged := [] |}.

Definition pos_eqb (p q : nat * nat) : bool :=
  (fst p =? fst q) && (snd p =? snd q).

Fixpoint lookup_cell (cells : list ((nat * nat) * Cell)) (p : nat * nat)
  : option Cell :=
  match cells with
  | [] => None
  | (q, c) :: rest => if pos_eqb q p then Some c else lookup_cell rest p
  end.

(** [worksheet.cell(row=r, column=c)]: the cell there, a blank one when
    the position was never addressed. *)
Definition ws_cell (ws : Worksheet) (r c : nat) : Cell :=
  match lookup_cell (ws_cells ws) (r, c) with
  | Some cell => cell
  | None => blank_cell
  end.

Definition put_cell (ws : Worksheet) (r c : nat) (cell : Cell) : Worksheet :=
  {| ws_cells := ((r, c), cell) :: ws_cells ws; ws_merged := ws_merged ws |}.

Definition merge_cells (ws : Worksheet) (rg : MergeRange) : Worksheet :=
  {| ws_cells := ws_cells ws; ws_merged := ws_merged ws ++ [rg] |}.

Record DataFrame := {
  df_columns : list str;
  df_values : list (list str)
}.

(** An element of [dataframes]: the three-element tuple the loop unpacks,
    or a tuple of another arity, on which unpacking raises [ValueError]. *)
Inductive DfTuple :=
| Tuple3 (df : DataFrame) (sheet_name : str) (date_workout_type : str)
| TupleOther (arity : nat).

Definition accent : str := "00A9E0".

Definition write_title (ws : Worksheet) (start_row : nat) (df : DataFrame)
           (date_workout_type : str) : Worksheet :=
  let c := ws_cell ws start_row 1 in
  let c := {| cell_value := VStr date_workout_type; cell_bold := true;
              cell_horizontal := "center";
              cell_vertical := cell_vertical c;
              cell_fill := cell_fill c; cell_border := cell_border c |} in
  merge_cells (put_cell ws start_row 1 c)
              (start_row, 1, start_row, length (df_columns df) + 1).

(** [for col_num, column_title in enumerate(df.columns, start=1)]. *)
Fixpoint write_headers (ws : Worksheet) (row col_num : nat)
         (titles : list str) : Worksheet :=
  match titles with
  | [] => ws
  | column_title :: rest =>
      let c := {| cell_value := VStr column_title; cell_bold := true;
                  cell_horizontal := "center"; cell_vertical := "center";
                  cell_fill := accent; cell_border := "thin" |} in
      write_headers (put_cell ws row col_num c) row (S col_num) rest
  end.

Definition data_value (columns : list str) (col_num : nat) (v : str)
  : CellValue :=
  if Str.starts_with "Set" (nth (col_num - 1) columns [])
  then coerce_set_value v else VStr v.

(** [for col_num, cell_value in enumerate(row_data, start=1)]. *)
Fixpoint write_row (ws : Worksheet) (columns : list str)
         (row_num col_num : nat) (row_data : list str) : Worksheet :=
  match row_data with
  | [] => ws
  | v :: rest =>
      let c := ws_cell ws row_num col_num in
      let c := {| cell_value := data_value columns col_num v;
                  cell_bold := cell_bold c;
                  cell_horizontal := cell_horizontal c;
                  cell_vertical := cell_vertical c;
                  cell_fill := cell_fill c; cell_border := "thin" |} in
      write_row (put_cell ws row_num col_num c) columns
                row_num (S col_num) rest
  end.

(** [for row_num, row_data in enumerate(df.values, start=start_row)]. *)
Fixpoint write_rows (ws : Worksheet) (columns : list str)
         (row_num : nat) (values : list (list str)) : Worksheet :=
  match values with
  | [] => ws
  | row_data :: rest =>
      write_rows (write_row ws columns row_num 1 row_data) columns
                 (S row_num) rest
  end.

(** One iteration of the loop over [dataframes], threading the sheet and
    [start_row]. *)
Definition write_table (st : Worksheet * nat) (t : DfTuple)
  : Worksheet * nat :=
  let (ws, start_row) := st in
  match t with
  | TupleOther _ => (ws, start_row)
  | Tuple3 df _ date_workout_type =>
      let ws := write_title ws start_row df date_workout_type in
      let start_row := start_row + 1 in
      let ws := write_headers ws start_row 1 (df_columns df) in
      let start_row := start_row + 1 in
      let ws := write_rows ws (df_columns df) start_row (df_values df) in
      (ws, start_row + (length (df_values df) + 3))
  end.

(** The sheet [create_excel] hands to the writer.  The closing pass that
    sets column widths touches neither cell values nor merged ranges and
    is left out, as is the encoding of the sheet into bytes. *)
Definition create_excel (dataframes : list DfTuple) : Worksheet :=
  fst (fold_left write_table dataframes (empty_sheet, 1)).

(** ** HTTP handler *)

Inductive Method := GET | POST.

Record Upload := { filename : str; content : list ascii }.

Record Request := { method : Method; files : list Upload }.

Inductive Response :=
| Json (body : list (str * str)) (status : nat)
| SendFile (excel_data : Worksheet) (download_name : str) (mimetype : str).

(** What a run of the handler does, in order: its prints, the file it
    stages, and the calls into the OCR client, the two parsers and the
    composer. *)
Inductive Event :=
| PrintNoFiles
| PrintSaving (name path : str)
| PrintExtracted (text : str)
| PrintTitleDate (label : str)
| PrintTableData (table_data : list Row)
| PrintError (msg : str)
| SaveFile (path : str)
| CallOcr (path : str)
| CallExtractTitle (text : str)
| CallTranscribe (text : str)
| CallCreateExcel (count : nat).

Definition UPLOAD_FOLDER : str := "uploads".

(** [os.path.join(a, b)] on POSIX for a folder name [a] without a
    trailing slash. *)
Definition path_join (a b : str) : str :=
  if Str.starts_with "/" b then b else a ++ py "/" ++ b.

Definition decimal_of_nat (n : nat) : str :=
  NilEmpty.string_of_uint (Nat.to_uint n).

(** [["Exercise"] + [f"Set {j+1}" for j in range(max_sets)]
     + ["Extra Info"]]. *)
Definition table_columns (max_sets : nat) : list str :=
  [py "Exercise"]
  ++ map (fun j => py "Set " ++ decimal_of_nat (j + 1)) (seq 0 max_sets)
  ++ [py "Extra Info"].

Definition make_frame (text : str) : DataFrame :=
  let (table_data, max_sets) := transcribe_text_to_table text in
  {| df_columns := table_columns max_sets; df_values := table_data |}.

Definition xlsx_mimetype : str :=
  "application/vnd.openxmlformats-officedocument.spreadsheetml.sheet".

Section Handler.

(** The collaborators outside the program: staging an upload on disk,
    which answers [Some msg] when it raises; the OCR client behind
    [extract_text_from_image], which answers the transcription or the
    message of the exception it raised; and the spreadsheet libraries
    under [create_excel] and [send_file], which answer [Some msg] when
    they raise while the workbook for [dataframes] is built, saved or
    sent, and [None] when it goes out. *)
Variable save : Upload -> str -> option str.
Variable extract_text_from_image : Upload -> str -> str + str.
Variable workbook_error : list DfTuple -> option str.

(** Body of [for i, file in enumerate(files)]: the frames gathered so
    far and the log, or the message of the exception that ended the
    loop. *)
Fixpoint process_files (i : nat) (todo : list Upload)
         (dataframes : list DfTuple) (log : list Event)
  : (str + list DfTuple) * list Event :=
  match todo with
  | [] => (inr dataframes, log)
  | file :: rest =>
      let file_path := path_join UPLOAD_FOLDER (filename file) in
      let log := log ++ [PrintSaving (filename file) file_path;
                         SaveFile file_path] in
      match save file file_path with
      | Some msg => (inl msg, log)
      | None =>
          let log := log ++ [CallOcr file_path] in
          match extract_text_from_image file file_path with
          | inr msg => (inl msg, log)
          | inl text =>
              let label := extract_workout_title_and_date text in
              let df := make_frame text in
              let log :=
                log ++ [PrintExtracted text;
                        CallExtractTitle text; PrintTitleDate label;
                        CallTranscribe text;
                        PrintTableData (df_values df)] in
              let sheet_name := py "Sheet" ++ decimal_of_nat (i + 1) in
              process_files (S i) rest
                (dataframes ++ [Tuple3 df sheet_name label]) log
          end
      end
  end.

Definition index (request : Request) : Response * list Event :=
  match method request with
  | POST =>
      match files request with
      | [] =>
          (Json [(py "error", py "No files received")] 400,
           [PrintNoFiles])
      | _ :: _ =>
          match process_files 0 (files request) [] [] with
          | (inl msg, log) =>
              (Json [(py "error", msg)] 500, log ++ [PrintError msg])
          | (inr dataframes, log) =>
              let log := log ++ [CallCreateExcel (length dataframes)] in
              match workbook_error dataframes with
              | Some msg =>
                  (Json [(py "error", msg)] 500, log ++ [PrintError msg])
              | None =>
                  (SendFile (create_excel dataframes) "workout.xlsx"
                            xlsx_mimetype, log)
              end
          end
      end
  | GET => (Json [(py "message", py "Upload your files")] 200, [])
  end.

End Handler.

(** ** Vocabulary of the specification *)

(** The line after the ['.']-to-[':'] normalisation. *)
Definition normalized (line : str) : str := Str.replace "." ":" line.

(** A line passes both filters: it has a ['/'] and splits into at least
    two parts on [':']. *)
Definition qualifies (line : str) : bool :=
  Str.char_in "/" (normalized line)
  && negb (length (Str.split ":" (normalized line)) <? 2).

(** The part the set pieces are read from, [parts[1]]. *)
Definition second_part (line : str) : str :=
  nth 1 (Str.split ":" (normalized line)) [].

(** Number of set pieces of a line before padding. *)
Definition piece_count (line : str) : nat :=
  length (set_pieces (second_part line)).

(** The row a qualifying line gives in a table of width [max_sets]. *)
Definition row_of_line (max_sets : nat) (line : str) : Row :=
  line_row max_sets (Str.split ":" (normalized line)).

Definition rows_of (max_sets : nat) (lines : list str) : list Row :=
  map (row_of_line max_sets) (filter qualifies lines).

(** The reading in which only the first [':'] separates: the text after
    it, whole. *)
Fixpoint after_first (sep : ascii) (s : str) : str :=
  match s with
  | [] => []
  | c :: r => if Ascii.eqb c sep then r else after_first sep r
  end.

Definition nl : str := [newline].

Definition bench_line : str := "Bench: 10/12/15 (warmup)".
Definition squat_line : str := "Squat: 8/8".

(** A title candidate whose trimmed text is not empty: the lines that
    can fill the title slot for good. *)
Definition names_title (line : str) : bool :=
  looks_like_title line && negb (Str.is_empty (Str.strip line)).

(** The lines the loop reads: every line up to and including the first
    one at which a title and a date are both held. *)
Fixpoint scanned (have_title have_date : bool) (lines : list str)
  : list str :=
  match lines with
  | [] => []
  | line :: rest =>
      let have_title := have_title || names_title line in
      let have_date := have_date || looks_like_date line in
      line :: (if have_title && have_date then []
               else scanned have_title have_date rest)
  end.

Definition stripped (found : option str) : str :=
  match found with
  | Some line => Str.strip line
  | None => []
  end.

Definition first_title (lines : list str) : str :=
  stripped (find names_title lines).

Definition last_date (lines : list str) : str :=
  stripped (find looks_like_date (rev lines)).

(** The reading in which the first date candidate is kept. *)
Definition first_date (lines : list str) : str :=
  stripped (find looks_like_date lines).

(** The two slots before the loop. *)
Definition no_header : Header :=
  {| workout_title := []; workout_date := [] |}.

(** A string of decimal digits: non-empty, every character in
    ['0'..'9']. *)
Definition is_decimal_string (s : str) : bool :=
  negb (Str.is_empty s) && forallb Chr.isdecimal s.

(** The events that stand for OCR, parsing or composing. *)
Definition is_processing (e : Event) : bool :=
  match e with
  | SaveFile _ | CallOcr _ | CallExtractTitle _ | CallTranscribe _
  | CallCreateExcel _ => true
  | _ => false
  end.

(** The tuple the handler appends for the [i]-th upload (counted from
    0) once OCR has answered [text]. *)
Definition handler_tuple (i : nat) (text : str) : DfTuple :=
  Tuple3 (make_frame text) (py "Sheet" ++ decimal_of_nat (i + 1))
         (extract_workout_title_and_date text).

Fixpoint handler_tuples (i : nat) (texts : list str) : list DfTuple :=
  match texts with
  | [] => []
  | text :: rest => handler_tuple i text :: handler_tuples (S i) rest
  end.

(** Title blocks of a sheet: the merged range of each title and the label
    in its first cell, for the tuples that unpack. *)
Fixpoint title_blocks (start_row : nat) (dataframes : list DfTuple)
  : list (MergeRange * str) :=
  match dataframes with
  | [] => []
  | TupleOther _ :: rest => title_blocks start_row rest
  | Tuple3 df _ label :: rest =>
      ((start_row, 1, start_row, length (df_columns df) + 1), label)
      :: title_blocks (start_row + 1 + 1 + (length (df_values df) + 3)) rest
  end.

(** The same blocks told from the transcribed texts: a title spans
    columns 1 to [setColumnCount + 3], and the next block starts two
    header rows, the data rows and three blank rows further down. *)
Fixpoint title_merges (start_row : nat) (texts : list str)
  : list (MergeRange * str) :=
  match texts with
  | [] => []
  | text :: rest =>
      ((start_row, 1, start_row, snd (transcribe_text_to_table text) + 3),
       extract_workout_title_and_date text)
      :: title_merges
           (start_row + (length (fst (transcribe_text_to_table text)) + 5))
           rest
  end.

(** The first cell of a block holds its label. *)
Definition title_in_place (ws : Worksheet) (b : MergeRange * str) : Prop :=
  match b with
  | ((r, c, _, _), label) => cell_value (ws_cell ws r c) = VStr label
  end.

(** Collaborators that always succeed, the OCR client reading the text
    off the upload itself: enough to run the handler on an example. *)
Definition save_ok (file : Upload) (path : str) : option str := None.

Definition ocr_echo (file : Upload) (path : str) : str + str :=
  inl (content file).

Definition workbook_ok (dataframes : list DfTuple) : option str := None.

Definition one_squat_upload : Request :=
  {| method := POST;
     files := [{| filename := "squat.png";
                  content := py "Squat: 8/8" |}] |}.

(** The sheet of a file response. *)
Definition sent_sheet (r : Response) : Worksheet :=
  match r with
  | SendFile ws _ _ => ws
  | Json _ _ => empty_sheet
  end.

(** The text in front of the first [sep], the whole text when there is
    none. *)
Fixpoint before_first (sep : ascii) (s : str) : str :=
  match s with
  | [] => []
  | c :: r => if Ascii.eqb c sep then [] else c :: before_first sep r
  end.

(** [sep.join(pieces)] for a one-character [sep]. *)
Fixpoint join (sep : ascii) (pieces : list str) : str :=
  match pieces with
  | [] => []
  | [p] => p
  | p :: rest => p ++ sep :: join sep rest
  end.

(** A set cell as the Table Builder leaves it: the empty marker or a
    string of digit characters. *)
Definition numeric_or_empty (cell : str) : Prop :=
  cell = [] \/ Str.isdigit cell = true.

(** [start_row] after the loop of [create_excel] has gone through
    [dataframes]. *)
Fixpoint next_start_row (start_row : nat) (dataframes : list DfTuple)
  : nat :=
  match dataframes with
  | [] => start_row
  | TupleOther _ :: rest => next_start_row start_row rest
  | Tuple3 df _ _ :: rest =>
      next_start_row (start_row + 1 + 1 + (length (df_values df) + 3)) rest
  end.

(** A header cell as the loop over [df.columns] leaves it. *)
Definition header_cell (column_title : str) : Cell :=
  {| cell_value := VStr column_title; cell_bold := true;
     cell_horizontal := "center"; cell_vertical := "center";
     cell_fill := accent; cell_border := "thin" |}.

Definition rename_sheet (f : str -> str) (t : DfTuple) : DfTuple :=
  match t with
  | Tuple3 df sheet_name label => Tuple3 df (f sheet_name) label
  | TupleOther arity => TupleOther arity
  end.

Definition range_row (rg : MergeRange) : nat :=
  match rg with (r, _, _, _) => r end.

(** A merged range that lies in one row and starts in column 1. *)
Definition title_range (rg : MergeRange) : Prop :=
  match rg with (r1, c1, r2, _) => r1 = r2 /\ c1 = 1 end.

(** The tuples the loop of [create_excel] can unpack. *)
Definition unpacks (t : DfTuple) : bool :=
  match t with
  | Tuple3 _ _ _ => true
  | TupleOther _ => false
  end.

(** What the coercion makes of a cell: an integer, or the cell itself. *)
Definition int_or_unchanged (cell : str) : Prop :=
  (exists n, coerce_set_value cell = VInt n)
  \/ coerce_set_value cell = VStr cell.

(** Where the handler stages an upload. *)
Definition staged_path (file : Upload) : str :=
  path_join UPLOAD_FOLDER (filename file).

Definition is_compose (e : Event) : bool :=
  match e with CallCreateExcel _ => true | _ => false end.

Definition is_ocr (e : Event) : bool :=
  match e with CallOcr _ => true | _ => false end.

Definition is_save (e : Event) : bool :=
  match e with SaveFile _ => true | _ => false end.

Definition sends_file (r : Response) : bool :=
  match r with SendFile _ _ _ => true | Json _ _ => false end.

(** * Properties *)

(** ** Characters *)

Ltac each_char c :=
  destruct c as [[] [] [] [] [] [] [] []]; vm_compute; try reflexivity;
  try discriminate; try tauto.

Lemma lower_isspace (c : ascii) :
  Chr.isspace (Chr.lower c) = Chr.isspace c.
Proof. each_char c. Qed.

Lemma lower_isdigit (c : ascii) :
  Chr.isdigit (Chr.lower c) = Chr.isdigit c.
Proof. each_char c. Qed.

Lemma isdecimal_isdigit (c : ascii) :
  Chr.isdecimal c = true -> Chr.isdigit c = true.
Proof. each_char c. Qed.

Lemma isdecimal_plain (c : ascii) :
  Chr.isdecimal c = true ->
  Num.isspace c = false /\ Num.is_underscore c = false
  /\ Ascii.eqb c "-" = false /\ Ascii.eqb c "+" = false.
Proof. each_char c. Qed.

Lemma isdigit_plain (c : ascii) :
  Chr.isdigit c = true ->
  Num.isspace c = false /\ Num.is_underscore c = false
  /\ Ascii.eqb c "-" = false /\ Ascii.eqb c "+" = false
  /\ Ascii.eqb c "." = false /\ Num.is_exp_mark c = false
  /\ Chr.lower c <> "i"%char /\ Chr.lower c <> "n"%char.
Proof. each_char c; repeat split; discriminate. Qed.

(** ** Strings *)

Lemma char_in_In (c : ascii) (s : str) :
  Str.char_in c s = true <-> In c s.
Proof.
  unfold Str.char_in. rewrite existsb_exists. split.
  - intros [x [Hin Heq]]. apply Ascii.eqb_eq in Heq. now subst.
  - intros Hin. exists c. split; [assumption | apply Ascii.eqb_refl].
Qed.

Lemma char_in_false (c : ascii) (s : str) :
  Str.char_in c s = false <-> ~ In c s.
Proof.
  rewrite <- char_in_In. destruct (Str.char_in c s); split; intro H;
    try reflexivity; try discriminate; try (intro; discriminate).
  exfalso. now apply H.
Qed.

Lemma split_not_nil (sep : ascii) (s : str) : Str.split sep s <> [].
Proof.
  destruct s as [|c s]; simpl; [discriminate|].
  destruct (Ascii.eqb c sep); [discriminate|].
  destruct (Str.split sep s); discriminate.
Qed.

(** Without a separator the text comes back as the only piece. *)
Lemma split_no_sep (sep : ascii) (s : str) :
  ~ In sep s -> Str.split sep s = [s].
Proof.
  induction s as [|c s IH]; intros Hn; simpl; [reflexivity|].
  destruct (Ascii.eqb c sep) eqn:E.
  - apply Ascii.eqb_eq in E. subst. exfalso. apply Hn. now left.
  - rewrite IH; [reflexivity|]. intro H. apply Hn. now right.
Qed.

(** The first piece ends at the first separator. *)
Lemma split_app (sep : ascii) (a r : str) :
  ~ In sep a -> Str.split sep (a ++ sep :: r) = a :: Str.split sep r.
Proof.
  induction a as [|c a IH]; intros Hn; simpl.
  - now rewrite Ascii.eqb_refl.
  - destruct (Ascii.eqb c sep) eqn:E.
    + apply Ascii.eqb_eq in E. subst. exfalso. apply Hn. now left.
    + rewrite IH; [reflexivity|]. intro H. apply Hn. now right.
Qed.

(** Every character of a piece comes from the text, and no piece holds
    the separator. *)
Lemma split_pieces (sep : ascii) (s : str) :
  Forall (fun p => ~ In sep p /\ forall c, In c p -> In c s)
         (Str.split sep s).
Proof.
  induction s as [|c s IH]; simpl.
  - constructor; [|constructor]. split; [tauto|]. intros ? [].
  - destruct (Ascii.eqb c sep) eqn:E.
    + constructor.
      * split; [tauto|]. intros ? [].
      * eapply Forall_impl; [|exact IH]. simpl. intros p [H1 H2].
        split; [assumption|]. intros x Hx. right. now apply H2.
    + destruct (Str.split sep s) as [|p ps] eqn:Es.
      * constructor; [|constructor]. split.
        -- intros [H|[]]. subst. now rewrite Ascii.eqb_refl in E.
        -- intros x [H|[]]. now left.
      * inversion IH as [|? ? [Hp1 Hp2] Hps]; subst. constructor.
        -- split.
           ++ intros [H|H]; [|tauto]. subst.
              now rewrite Ascii.eqb_refl in E.
           ++ intros x [H|H]; [now left|]. right. now apply Hp2.
        -- eapply Forall_impl; [|exact Hps]. simpl. intros q [H1 H2].
           split; [assumption|]. intros x Hx. right. now apply H2.
Qed.

Lemma split_nth_sub (sep : ascii) (s : str) (k : nat) (c : ascii) :
  In c (nth k (Str.split sep s) []) -> In c s.
Proof.
  intros Hin.
  destruct (Nat.lt_ge_cases k (length (Str.split sep s))) as [Hk|Hk].
  - pose proof (split_pieces sep s) as HF.
    rewrite Forall_forall in HF.
    destruct (HF _ (nth_In _ [] Hk)) as [_ H]. now apply H.
  - rewrite nth_overflow in Hin by assumption. destruct Hin.
Qed.

Lemma split_nth_no_sep (sep : ascii) (s : str) (k : nat) :
  ~ In sep (nth k (Str.split sep s) []).
Proof.
  destruct (Nat.lt_ge_cases k (length (Str.split sep s))) as [Hk|Hk].
  - pose proof (split_pieces sep s) as HF.
    rewrite Forall_forall in HF.
    now destruct (HF _ (nth_In _ [] Hk)) as [H _].
  - rewrite nth_overflow by assumption. intros [].
Qed.

(** At least two pieces exactly when the separator occurs. *)
Lemma split_two_parts (sep : ascii) (s : str) :
  (length (Str.split sep s) <? 2) = negb (Str.char_in sep s).
Proof.
  destruct (Str.char_in sep s) eqn:E.
  - apply char_in_In in E. apply in_split in E.
    destruct E as [a [r ->]].
    assert (H : exists a' r', a ++ sep :: r = a' ++ sep :: r'
                              /\ ~ In sep a').
    { clear. induction a as [|c a IH].
      - exists [], r. split; [reflexivity | intros []].
      - destruct (ascii_dec c sep) as [->|Hne].
        + exists [], (a ++ sep :: r). split; [reflexivity | intros []].
        + destruct IH as [a' [r' [Heq Hn]]]. exists (c :: a'), r'.
          split; [simpl; now rewrite Heq|].
          intros [H|H]; [now apply Hne | now apply Hn]. }
    destruct H as [a' [r' [-> Hn]]]. rewrite split_app by assumption.
    simpl. pose proof (split_not_nil sep r').
    destruct (Str.split sep r'); [contradiction | reflexivity].
  - apply char_in_false in E. now rewrite split_no_sep.
Qed.

Lemma replace_In (old new c : ascii) (s : str) :
  In c (Str.replace old new s) ->
  c <> old \/ c = new.
Proof.
  unfold Str.replace. rewrite in_map_iff. intros [x [Hx _]].
  destruct (Ascii.eqb x old) eqn:E; [now right|].
  left. subst. intro H. subst. now rewrite Ascii.eqb_refl in E.
Qed.

Lemma normalized_no_dot (line : str) : ~ In "."%char (normalized line).
Proof.
  intros H. apply replace_In in H. destruct H as [H|H]; [now apply H|].
  discriminate.
Qed.

Lemma normalized_slash (line : str) :
  Str.char_in "/" (normalized line) = Str.char_in "/" line.
Proof.
  unfold normalized, Str.replace, Str.char_in.
  induction line as [|c l IH]; simpl; [reflexivity|]. rewrite IH.
  f_equal. destruct (Ascii.eqb c ".") eqn:E; [|reflexivity].
  apply Ascii.eqb_eq in E. now subst.
Qed.

Lemma lstrip_sub (s : str) (c : ascii) : In c (Str.lstrip s) -> In c s.
Proof.
  induction s as [|x s IH]; simpl; [tauto|].
  destruct (Chr.isspace x); [intro; right; now apply IH | tauto].
Qed.

Lemma strip_sub (s : str) (c : ascii) : In c (Str.strip s) -> In c s.
Proof.
  unfold Str.strip, Str.rstrip. intros H. apply in_rev in H.
  apply lstrip_sub in H. apply in_rev in H. now apply lstrip_sub in H.
Qed.

(** ** Table Builder *)

Lemma pass1_step_spec (m : nat) (line : str) :
  pass1_step m line =
  if qualifies line then Nat.max m (piece_count line) else m.
Proof.
  unfold pass1_step, qualifies, piece_count, second_part, normalized.
  destruct (Str.char_in "/" (Str.replace "." ":" line)); [|reflexivity].
  now destruct (length (Str.split ":" (Str.replace "." ":" line)) <? 2).
Qed.

Lemma pass2_step_spec (m : nat) (data : list Row) (line : str) :
  pass2_step m data line =
  if qualifies line then data ++ [row_of_line m line] else data.
Proof.
  unfold pass2_step, qualifies, row_of_line, normalized.
  destruct (Str.char_in "/" (Str.replace "." ":" line)); [|reflexivity].
  now destruct (length (Str.split ":" (Str.replace "." ":" line)) <? 2).
Qed.

Lemma pass1_fold (lines : list str) (m : nat) :
  fold_left pass1_step lines m =
  Nat.max m (list_max (map piece_count (filter qualifies lines))).
Proof.
  revert m. induction lines as [|l ls IH]; intros m; simpl.
  - now rewrite Nat.max_0_r.
  - rewrite IH, pass1_step_spec. destruct (qualifies l).
    + unfold list_max. cbn [map fold_right].
      lia.
    + reflexivity.
Qed.

Lemma pass2_fold (m : nat) (lines : list str) (data : list Row) :
  fold_left (pass2_step m) lines data = data ++ rows_of m lines.
Proof.
  revert data. induction lines as [|l ls IH]; intros data; simpl.
  - unfold rows_of. simpl. now rewrite app_nil_r.
  - rewrite IH, pass2_step_spec. unfold rows_of. simpl.
    destruct (qualifies l); simpl; [|reflexivity].
    now rewrite <- app_assoc.
Qed.

Lemma transcribe_lines_spec (lines : list str) :
  transcribe_lines lines =
  (rows_of (list_max (map piece_count (filter qualifies lines))) lines,
   list_max (map piece_count (filter qualifies lines))).
Proof.
  unfold transcribe_lines. now rewrite pass2_fold, pass1_fold.
Qed.

Lemma pad_loop_repeat (k : nat) (sets : list str) :
  pad_loop k sets = sets ++ repeat [] k.
Proof.
  revert sets. induction k as [|k IH]; intros sets; simpl.
  - now rewrite app_nil_r.
  - rewrite IH, <- app_assoc. reflexivity.
Qed.

Lemma pad_sets_repeat (sets : list str) (m : nat) :
  pad_sets sets m = sets ++ repeat [] (m - length sets).
Proof. apply pad_loop_repeat. Qed.

Lemma pad_sets_length (sets : list str) (m : nat) :
  length (pad_sets sets m) = Nat.max (length sets) m.
Proof.
  rewrite pad_sets_repeat, length_app, repeat_length. lia.
Qed.

Lemma note_cell (extra_info : str) :
  (if Str.is_empty extra_info then [] else extra_info) = extra_info.
Proof. now destruct extra_info. Qed.

Lemma line_row_shape (m : nat) (parts : list str) :
  line_row m parts =
  Str.strip (nth 0 parts [])
  :: pad_sets (set_pieces (nth 1 parts [])) m
  ++ [extra_info_of (nth 1 parts [])].
Proof. unfold line_row. now rewrite note_cell. Qed.

Lemma row_sets_line_row (m : nat) (parts : list str) :
  row_sets (line_row m parts) = pad_sets (set_pieces (nth 1 parts [])) m.
Proof.
  rewrite line_row_shape. unfold row_sets. simpl. apply removelast_last.
Qed.

Lemma row_note_line_row (m : nat) (parts : list str) :
  row_note (line_row m parts) = extra_info_of (nth 1 parts []).
Proof.
  rewrite line_row_shape. unfold row_note.
  change (?e :: ?l ++ [?n]) with ((e :: l) ++ [n]). apply last_last.
Qed.

Lemma row_exercise_line_row (m : nat) (parts : list str) :
  row_exercise (line_row m parts) = Str.strip (nth 0 parts []).
Proof. now rewrite line_row_shape. Qed.

Lemma piece_count_le_max (lines : list str) (l : str) :
  In l (filter qualifies lines) ->
  piece_count l <= list_max (map piece_count (filter qualifies lines)).
Proof.
  intros Hin.
  assert (H : list_max (map piece_count (filter qualifies lines))
              <= list_max (map piece_count (filter qualifies lines)))
    by lia.
  rewrite list_max_le, Forall_forall in H. apply H.
  now apply in_map.
Qed.

(** Every row has one exercise cell, [max_sets] set cells and one note
    cell. *)
Lemma transcribe_row_width (text : str) :
  Forall (fun row => length row = snd (transcribe_text_to_table text) + 2)
         (fst (transcribe_text_to_table text)).
Proof.
  unfold transcribe_text_to_table. rewrite transcribe_lines_spec. simpl.
  set (lines := Str.split newline text).
  apply Forall_forall. intros row Hin. unfold rows_of in Hin.
  apply in_map_iff in Hin. destruct Hin as [l [<- Hl]].
  unfold row_of_line. rewrite line_row_shape. cbn [length].
  rewrite length_app, pad_sets_length. cbn [length].
  pose proof (piece_count_le_max lines l Hl) as Hle.
  change (length (set_pieces (nth 1 (Str.split ":" (normalized l)) [])))
    with (piece_count l). lia.
Qed.

(** C1. For every input text the table of [transcribe_text_to_table] is
    rectangular: the set cells of every row number exactly [max_sets],
    and [max_sets] is the largest count of numeric-or-empty set pieces,
    before padding, over the lines that pass the ['/'] and colon-split
    filters (0 when no line passes). *)
Theorem transcribe_rectangular (text : str) :
  Forall (fun row =>
            length (row_sets row) = snd (transcribe_text_to_table text))
         (fst (transcribe_text_to_table text))
  /\ snd (transcribe_text_to_table text)
     = list_max (map piece_count
                     (filter qualifies (Str.split newline text))).
Proof.
  unfold transcribe_text_to_table. rewrite transcribe_lines_spec. simpl.
  split; [|reflexivity].
  set (lines := Str.split newline text).
  apply Forall_forall. intros row Hin. unfold rows_of in Hin.
  apply in_map_iff in Hin. destruct Hin as [l [<- Hl]].
  unfold row_of_line. rewrite row_sets_line_row, pad_sets_length.
  pose proof (piece_count_le_max lines l Hl) as Hle.
  change (length (set_pieces (nth 1 (Str.split ":" (normalized l)) [])))
    with (piece_count l). lia.
Qed.

(** A line that fails a filter leaves both loops untouched. *)
Lemma transcribe_lines_skip (l1 l2 : list str) (line : str) :
  qualifies line = false ->
  transcribe_lines (l1 ++ line :: l2) = transcribe_lines (l1 ++ l2).
Proof.
  intros Hq. rewrite !transcribe_lines_spec. unfold rows_of.
  rewrite !filter_app. simpl. now rewrite Hq.
Qed.

Lemma qualifies_false_iff (line : str) :
  qualifies line = false <->
  ~ In "/"%char line
  \/ length (Str.split ":" (normalized line)) < 2.
Proof.
  unfold qualifies. rewrite normalized_slash.
  destruct (Str.char_in "/" line) eqn:E.
  - apply char_in_In in E. simpl.
    destruct (length (Str.split ":" (normalized line)) <? 2) eqn:L.
    + apply Nat.ltb_lt in L. simpl. split; [now right | reflexivity].
    + apply Nat.ltb_ge in L. simpl. split; [discriminate|].
      intros [H|H]; [contradiction | lia].
  - apply char_in_false in E. simpl. split; [now left | reflexivity].
Qed.

(** C7. A line without ['/'], whatever else it holds, and a line that
    gives fewer than two parts when split on [':'] after the
    normalisation, contribute nothing: the table of the text is the
    table of the remaining lines, and it is returned, not an error. *)
Theorem transcribe_skips_unqualified
        (text : str) (l1 l2 : list str) (line : str) :
  Str.split newline text = l1 ++ line :: l2 ->
  ~ In "/"%char line
  \/ length (Str.split ":" (normalized line)) < 2 ->
  transcribe_text_to_table text = transcribe_lines (l1 ++ l2)
  /\ fst (transcribe_text_to_table text)
     = rows_of (snd (transcribe_text_to_table text)) l1
       ++ rows_of (snd (transcribe_text_to_table text)) l2.
Proof.
  intros Hsplit Hfail. apply qualifies_false_iff in Hfail.
  unfold transcribe_text_to_table. rewrite Hsplit.
  rewrite transcribe_lines_skip by assumption. split; [reflexivity|].
  rewrite transcribe_lines_spec. simpl. unfold rows_of.
  now rewrite filter_app, map_app.
Qed.

Lemma transcribe_text_spec (text : str) :
  transcribe_text_to_table text =
  (rows_of (snd (transcribe_text_to_table text)) (Str.split newline text),
   snd (transcribe_text_to_table text)).
Proof.
  unfold transcribe_text_to_table. now rewrite transcribe_lines_spec.
Qed.

(** A qualifying line gives its row at its place, and the table is at
    least as wide as its piece count. *)
Lemma transcribe_row_at (text : str) (l1 l2 : list str) (line : str) :
  Str.split newline text = l1 ++ line :: l2 ->
  qualifies line = true ->
  piece_count line <= snd (transcribe_text_to_table text)
  /\ fst (transcribe_text_to_table text)
     = rows_of (snd (transcribe_text_to_table text)) l1
       ++ row_of_line (snd (transcribe_text_to_table text)) line
       :: rows_of (snd (transcribe_text_to_table text)) l2.
Proof.
  intros Hsplit Hq. split.
  - unfold transcribe_text_to_table. rewrite transcribe_lines_spec.
    simpl. apply piece_count_le_max. rewrite Hsplit, filter_app.
    apply in_or_app. right. simpl. rewrite Hq. now left.
  - rewrite transcribe_text_spec at 1. simpl. rewrite Hsplit.
    unfold rows_of. rewrite filter_app, map_app. simpl. now rewrite Hq.
Qed.

Lemma bench_row (m : nat) :
  row_of_line m bench_line
  = [py "Bench"; py "10"; py "12"] ++ repeat [] (m - 2) ++ [py "warmup"].
Proof.
  unfold row_of_line. rewrite line_row_shape, pad_sets_repeat.
  reflexivity.
Qed.

Lemma squat_row (m : nat) :
  row_of_line m squat_line
  = [py "Squat"; py "8"; py "8"] ++ repeat [] (m - 2) ++ [py ""].
Proof.
  unfold row_of_line. rewrite line_row_shape, pad_sets_repeat.
  reflexivity.
Qed.

(** C2, as the code has it.  In a text with the line
    ["Bench: 10/12/15 (warmup)"] that line gives the row with exercise
    ["Bench"], note ["warmup"] and sets ["10"], ["12"] followed by
    [max_sets - 2] empty markers: the third piece is ["15 (warmup)"],
    which is not purely numeric and is dropped.  A line ["Squat: 8/8"]
    gives ["8"], ["8"] followed by [max_sets - 2] empty markers, that is
    ["8"], ["8"], [""] when the document maximum is 3. *)
Theorem bench_and_squat_rows (text : str) (l1 l2 : list str) :
  (Str.split newline text = l1 ++ bench_line :: l2 ->
   2 <= snd (transcribe_text_to_table text)
   /\ fst (transcribe_text_to_table text)
      = rows_of (snd (transcribe_text_to_table text)) l1
        ++ ([py "Bench"; py "10"; py "12"]
            ++ repeat [] (snd (transcribe_text_to_table text) - 2)
            ++ [py "warmup"])
        :: rows_of (snd (transcribe_text_to_table text)) l2)
  /\ (Str.split newline text = l1 ++ squat_line :: l2 ->
      2 <= snd (transcribe_text_to_table text)
      /\ fst (transcribe_text_to_table text)
         = rows_of (snd (transcribe_text_to_table text)) l1
           ++ ([py "Squat"; py "8"; py "8"]
               ++ repeat [] (snd (transcribe_text_to_table text) - 2)
               ++ [py ""])
           :: rows_of (snd (transcribe_text_to_table text)) l2
      /\ (snd (transcribe_text_to_table text) = 3 ->
          In [py "Squat"; py "8"; py "8"; py ""; py ""]
             (fst (transcribe_text_to_table text)))).
Proof.
  split; intros Hsplit.
  - destruct (transcribe_row_at text l1 l2 bench_line Hsplit eq_refl)
      as [Hle Hrows].
    split; [exact Hle|]. now rewrite Hrows at 1; rewrite bench_row.
  - destruct (transcribe_row_at text l1 l2 squat_line Hsplit eq_refl)
      as [Hle Hrows].
    split; [exact Hle|]. split.
    + now rewrite Hrows at 1; rewrite squat_row.
    + intros H3. rewrite Hrows, squat_row, H3. apply in_or_app. right.
      now left.
Qed.

Lemma bench_and_squat_rows_witness :
  Str.split newline (bench_line ++ nl ++ squat_line)
  = [] ++ bench_line :: [squat_line]
  /\ fst (transcribe_text_to_table (bench_line ++ nl ++ squat_line))
     = [[py "Bench"; py "10"; py "12"; py "warmup"];
        [py "Squat"; py "8"; py "8"; py ""]].
Proof.
  split; [reflexivity|].
  destruct (proj1 (bench_and_squat_rows (bench_line ++ nl ++ squat_line)
                                        [] [squat_line]) eq_refl)
    as [_ H].
  rewrite H. reflexivity.
Defined.

(** C2 as stated fails: the text holds the Bench line, no line yields
    more than 3 set pieces, and still no row carries the sets ["10"],
    ["12"], ["15"]. *)
Lemma bench_row_counterexample :
  In bench_line (Str.split newline (bench_line ++ nl ++ squat_line))
  /\ Forall (fun l => piece_count l <= 3)
            (Str.split newline (bench_line ++ nl ++ squat_line))
  /\ transcribe_text_to_table (bench_line ++ nl ++ squat_line)
     = ([[py "Bench"; py "10"; py "12"; py "warmup"];
         [py "Squat"; py "8"; py "8"; py ""]], 2)
  /\ ~ Exists (fun row => row_sets row = [py "10"; py "12"; py "15"])
              (fst (transcribe_text_to_table
                      (bench_line ++ nl ++ squat_line))).
Proof.
  split; [now left|]. split.
  - repeat constructor.
  - split; [reflexivity|]. intros H.
    change (fst (transcribe_text_to_table (bench_line ++ nl ++ squat_line)))
      with [[py "Bench"; py "10"; py "12"; py "warmup"];
            [py "Squat"; py "8"; py "8"; py ""]] in H.
    inversion H as [? ? H1|? ? H1]; subst; [discriminate H1|].
    inversion H1 as [? ? H2|? ? H2]; subst; [discriminate H2|].
    inversion H2.
Qed.

(** *** Which text the set pieces are read from *)

Lemma split_second (sep : ascii) (a b rest : str) :
  ~ In sep a -> ~ In sep b ->
  rest = [] \/ (exists r, rest = sep :: r) ->
  nth 0 (Str.split sep (a ++ sep :: b ++ rest)) [] = a
  /\ nth 1 (Str.split sep (a ++ sep :: b ++ rest)) [] = b
  /\ 2 <= length (Str.split sep (a ++ sep :: b ++ rest)).
Proof.
  intros Ha Hb Hrest. rewrite split_app by assumption.
  destruct Hrest as [->|[r ->]].
  - rewrite app_nil_r, split_no_sep by assumption. simpl.
    repeat split; lia.
  - rewrite split_app by assumption. simpl. repeat split; lia.
Qed.

(** C4, as the code has it.  For a line with a ['/'], the normalised
    line is split on every [':'] and the set pieces are read from the
    text between the first and the second colon (up to the end of the
    line when there is one colon only): that text, trimmed and split on
    ['/'], gives the pieces, the exercise is the text before the first
    colon, and whatever follows a second colon is not read. *)
Theorem sets_read_between_first_two_colons
        (line a b rest : str) (m : nat) (data : list Row) :
  normalized line = a ++ ":"%char :: b ++ rest ->
  ~ In ":"%char a -> ~ In ":"%char b ->
  rest = [] \/ (exists r, rest = ":"%char :: r) ->
  In "/"%char line ->
  second_part line = b
  /\ pass2_step m data line
     = data ++ [Str.strip a :: pad_sets (set_pieces b) m
                ++ [extra_info_of b]].
Proof.
  intros Hn Ha Hb Hrest Hslash.
  destruct (split_second ":" a b rest Ha Hb Hrest) as [H0 [H1 H2]].
  split.
  - unfold second_part. now rewrite Hn.
  - rewrite pass2_step_spec. unfold qualifies, row_of_line.
    rewrite normalized_slash.
    apply char_in_In in Hslash. rewrite Hslash, Hn. simpl.
    apply Nat.ltb_ge in H2. rewrite H2. simpl.
    now rewrite line_row_shape, H0, H1.
Qed.

Lemma sets_read_between_first_two_colons_witness :
  second_part "Bench: 10/12: 15" = py " 10/12"
  /\ pass2_step 2 [] "Bench: 10/12: 15"
     = [[py "Bench"; py "10"; py "12"; py ""]].
Proof.
  destruct (sets_read_between_first_two_colons
              "Bench: 10/12: 15" "Bench" " 10/12" ": 15" 2 []) as [H1 H2].
  - reflexivity.
  - apply char_in_false. reflexivity.
  - apply char_in_false. reflexivity.
  - right. exists (py " 15"). reflexivity.
  - apply char_in_In. reflexivity.
  - split; [exact H1|]. rewrite H2. reflexivity.
Defined.

(** C4 as stated fails: on ["Bench: 10/12: 15"] the text after the first
    colon, taken whole, would give the single piece ["10"], while the
    row built by the code holds ["10"] and ["12"]. *)
Lemma first_colon_split_counterexample :
  Str.char_in "/" (normalized "Bench: 10/12: 15") = true
  /\ set_pieces (after_first ":" (normalized "Bench: 10/12: 15"))
     = [py "10"]
  /\ transcribe_text_to_table "Bench: 10/12: 15"
     = ([[py "Bench"; py "10"; py "12"; py ""]], 2)
  /\ set_pieces (second_part "Bench: 10/12: 15")
     <> set_pieces (after_first ":" (normalized "Bench: 10/12: 15")).
Proof.
  repeat split; try reflexivity. vm_compute. discriminate.
Qed.

(** *** The note *)

Lemma split_first_piece (sep c : ascii) (b r : str) :
  c <> sep -> ~ In sep b ->
  exists r1 ps, Str.split sep (b ++ c :: r) = (b ++ c :: r1) :: ps.
Proof.
  intros Hc. induction b as [|x b IH]; intros Hb; simpl.
  - destruct (Ascii.eqb c sep) eqn:E.
    + apply Ascii.eqb_eq in E. contradiction.
    + pose proof (split_not_nil sep r) as Hr.
      destruct (Str.split sep r) as [|p ps]; [contradiction|].
      now exists p, ps.
  - destruct (Ascii.eqb x sep) eqn:E.
    + apply Ascii.eqb_eq in E. subst. exfalso. apply Hb. now left.
    + destruct IH as [r1 [ps ->]].
      * intro H. apply Hb. now right.
      * now exists r1, ps.
Qed.

Lemma extra_info_no_paren (part : str) :
  ~ In "("%char part -> extra_info_of part = [].
Proof.
  intros H. apply char_in_false in H. unfold extra_info_of.
  now rewrite H.
Qed.

Lemma extra_info_after_paren (a b rest : str) :
  ~ In "("%char a -> ~ In "("%char b -> ~ In ")"%char b ->
  rest = [] \/ (exists c r, rest = c :: r /\ (c = "("%char \/ c = ")"%char)) ->
  extra_info_of (a ++ "("%char :: b ++ rest) = b.
Proof.
  intros Ha Hb1 Hb2 Hrest. unfold extra_info_of.
  assert (Hin : Str.char_in "(" (a ++ "("%char :: b ++ rest) = true).
  { apply char_in_In, in_or_app. right. now left. }
  rewrite Hin, split_app by assumption. cbn [nth].
  destruct Hrest as [->|[c [r [-> [->| ->]]]]].
  - rewrite app_nil_r, (split_no_sep "(" b) by assumption. cbn [nth].
    now rewrite split_no_sep.
  - rewrite (split_app "(" b r) by assumption. cbn [nth].
    now rewrite split_no_sep.
  - destruct (split_first_piece "(" ")" b r) as [r1 [ps ->]];
      [discriminate | assumption |].
    cbn [nth]. now rewrite split_app.
Qed.

(** C5, as the code has it.  The note of a row is read from the second
    part alone: it is empty when that part has no ['('], and otherwise it
    is the text after the first ['('] up to the next ['('] or [')'],
    or up to the end of the part when neither follows.  So a part with a
    ['('] and no [')'] still gives a note, the text after the ['(']. *)
Theorem note_runs_from_first_paren (m : nat) (parts : list str) :
  row_note (line_row m parts) = extra_info_of (nth 1 parts [])
  /\ (~ In "("%char (nth 1 parts []) -> row_note (line_row m parts) = [])
  /\ (forall a b rest,
         nth 1 parts [] = a ++ "("%char :: b ++ rest ->
         ~ In "("%char a -> ~ In "("%char b -> ~ In ")"%char b ->
         rest = []
         \/ (exists c r, rest = c :: r /\ (c = "("%char \/ c = ")"%char)) ->
         row_note (line_row m parts) = b).
Proof.
  rewrite row_note_line_row. split; [reflexivity|]. split.
  - apply extra_info_no_paren.
  - intros a b rest -> Ha Hb1 Hb2 Hrest.
    now apply extra_info_after_paren.
Qed.

Lemma note_runs_from_first_paren_witness :
  row_note (line_row 2 [py "Bench"; py " 10/12 (warmup"]) = py "warmup"
  /\ row_note (line_row 2 [py "Bench"; py " 10/12"]) = [].
Proof.
  split.
  - apply (proj2 (proj2 (note_runs_from_first_paren
                           2 [py "Bench"; py " 10/12 (warmup"]))
                 (py " 10/12 ") (py "warmup") []).
    + reflexivity.
    + apply char_in_false. reflexivity.
    + apply char_in_false. reflexivity.
    + apply char_in_false. reflexivity.
    + now left.
  - apply (proj1 (proj2 (note_runs_from_first_paren
                           2 [py "Bench"; py " 10/12"]))).
    apply char_in_false. reflexivity.
Defined.

(** C5 as stated fails: the second part of ["Bench: 10/12 (warmup"] has a
    ['('] and no [')'], and the note of its row is ["warmup"], not the
    empty string. *)
Lemma unclosed_paren_note_counterexample :
  Str.char_in "(" (second_part "Bench: 10/12 (warmup") = true
  /\ Str.char_in ")" (second_part "Bench: 10/12 (warmup") = false
  /\ map row_note (fst (transcribe_text_to_table "Bench: 10/12 (warmup"))
     = [py "warmup"]
  /\ map row_note (fst (transcribe_text_to_table "Bench: 10/12 (warmup"))
     <> [py ""].
Proof.
  repeat split; try reflexivity. vm_compute. discriminate.
Qed.

Lemma normalized_id (s : str) : ~ In "."%char s -> normalized s = s.
Proof.
  unfold normalized, Str.replace.
  induction s as [|c s IH]; intros Hn; simpl; [reflexivity|].
  destruct (Ascii.eqb c ".") eqn:E.
  - apply Ascii.eqb_eq in E. subst. exfalso. apply Hn. now left.
  - rewrite IH; [reflexivity|]. intro H. apply Hn. now right.
Qed.

Lemma normalized_app (s t : str) :
  normalized (s ++ t) = normalized s ++ normalized t.
Proof. apply map_app. Qed.

Lemma extra_info_sub (part : str) (c : ascii) :
  In c (extra_info_of part) -> In c part.
Proof.
  unfold extra_info_of. destruct (Str.char_in "(" part); [|intros []].
  intros H. apply split_nth_sub in H. now apply split_nth_sub in H.
Qed.

Lemma second_part_clean (line : str) :
  ~ In "."%char (second_part line) /\ ~ In ":"%char (second_part line).
Proof.
  unfold second_part. split.
  - intros H. apply split_nth_sub in H. now apply normalized_no_dot in H.
  - apply split_nth_no_sep.
Qed.

(** C10, as the code has it.  No note holds a ['.'], and none holds a
    [':'] either: the line is normalised first and the note is cut out of
    the second part, which ends at the next colon.  A period between the
    parentheses therefore does not show up as [':'] in the note; the
    note stops in front of it. *)
Theorem note_has_no_period_nor_colon (text : str) :
  Forall (fun row => ~ In "."%char (row_note row)
                     /\ ~ In ":"%char (row_note row))
         (fst (transcribe_text_to_table text))
  /\ (forall m a b n tail,
         ~ In "."%char (a ++ b ++ n) -> ~ In ":"%char (a ++ b ++ n) ->
         ~ In "("%char (b ++ n) -> ~ In ")"%char n ->
         row_note (row_of_line m (a ++ ":"%char :: b ++ "("%char :: n
                                    ++ "."%char :: tail)) = n).
Proof.
  split.
  - rewrite transcribe_text_spec. simpl. apply Forall_forall.
    intros row Hin. unfold rows_of in Hin. apply in_map_iff in Hin.
    destruct Hin as [l [<- _]]. unfold row_of_line.
    rewrite row_note_line_row. fold (second_part l).
    destruct (second_part_clean l) as [Hd Hc].
    split; intros H; apply extra_info_sub in H; contradiction.
  - intros m a b n tail Hdot Hcol Hopen Hclose.
    unfold row_of_line. rewrite row_note_line_row.
    assert (Hnorm : normalized (a ++ ":"%char :: b ++ "("%char :: n
                                  ++ "."%char :: tail)
                    = a ++ ":"%char :: (b ++ "("%char :: n)
                        ++ ":"%char :: normalized tail).
    { rewrite normalized_app.
      change (":"%char :: b ++ "("%char :: n ++ "."%char :: tail)
        with ([":"%char] ++ b ++ ["("%char] ++ n ++ "."%char :: tail).
      rewrite !normalized_app.
      rewrite (normalized_id a), (normalized_id b), (normalized_id n).
      - cbn. now rewrite <- app_assoc.
      - intro H. apply Hdot. rewrite !in_app_iff. tauto.
      - intro H. apply Hdot. rewrite !in_app_iff. tauto.
      - intro H. apply Hdot. rewrite !in_app_iff. tauto. }
    rewrite Hnorm.
    destruct (split_second ":" a (b ++ "("%char :: n)
                           (":"%char :: normalized tail)) as [_ [-> _]].
    + intro H. apply Hcol. rewrite !in_app_iff. tauto.
    + intro H. apply in_app_or in H. destruct H as [H|[H|H]].
      * apply Hcol. rewrite !in_app_iff. tauto.
      * discriminate H.
      * apply Hcol. rewrite !in_app_iff. tauto.
    + right. now exists (normalized tail).
    + assert (Hb : ~ In "("%char b)
        by (intro H; apply Hopen; rewrite in_app_iff; tauto).
      assert (Hn : ~ In "("%char n)
        by (intro H; apply Hopen; rewrite in_app_iff; tauto).
      pose proof (extra_info_after_paren b n [] Hb Hn Hclose
                                         (or_introl eq_refl)) as H.
      now rewrite app_nil_r in H.
Qed.

Lemma note_has_no_period_nor_colon_witness :
  row_note (row_of_line 2 "Bench: 10/12 (felt good. heavy)")
  = py "felt good".
Proof.
  apply (proj2 (note_has_no_period_nor_colon [])
               2 (py "Bench") (py " 10/12 ") (py "felt good")
               (py " heavy)"));
    apply char_in_false; reflexivity.
Defined.

(** C10 as stated fails in its second half: the period inside the
    parentheses of ["Bench: 10/12 (felt good. heavy)"] does not come out
    as a colon, the note is ["felt good"]. *)
Lemma period_in_note_counterexample :
  map row_note
      (fst (transcribe_text_to_table "Bench: 10/12 (felt good. heavy)"))
  = [py "felt good"]
  /\ Str.char_in ":" (py "felt good") = false
  /\ map row_note
         (fst (transcribe_text_to_table "Bench: 10/12 (felt good. heavy)"))
     <> [py "felt good: heavy"].
Proof.
  repeat split; try reflexivity. vm_compute. discriminate.
Qed.

(** ** Title/Date Extractor *)

Lemma lstrip_lower (s : str) :
  Str.lstrip (Str.lower s) = Str.lower (Str.lstrip s).
Proof.
  induction s as [|c s IH]; simpl; [reflexivity|].
  rewrite lower_isspace. now destruct (Chr.isspace c).
Qed.

Lemma lower_rev (s : str) : Str.lower (rev s) = rev (Str.lower s).
Proof. apply map_rev. Qed.

Lemma strip_lower (s : str) :
  Str.strip (Str.lower s) = Str.lower (Str.strip s).
Proof.
  unfold Str.strip, Str.rstrip.
  now rewrite lstrip_lower, <- lower_rev, lstrip_lower, lower_rev.
Qed.

(** A date candidate is never blank. *)
Lemma date_line_not_blank (line : str) :
  looks_like_date line = true -> Str.is_empty (Str.strip line) = false.
Proof.
  unfold looks_like_date. rewrite strip_lower.
  destruct (Str.strip line); [discriminate | reflexivity].
Qed.

Lemma names_title_strip (line : str) :
  names_title line = true -> Str.is_empty (Str.strip line) = false.
Proof.
  unfold names_title. intros H. apply andb_true_iff in H.
  destruct H as [_ H]. now apply negb_true_iff in H.
Qed.

Lemma find_app {A : Type} (f : A -> bool) (l1 l2 : list A) :
  find f (l1 ++ l2)
  = match find f l1 with Some x => Some x | None => find f l2 end.
Proof.
  induction l1 as [|x l1 IH]; simpl; [reflexivity|].
  now destruct (f x).
Qed.

Lemma scan_step_title (st : Header) (line : str) :
  workout_title (scan_step st line)
  = if Str.is_empty (workout_title st)
    then (if names_title line then Str.strip line else [])
    else workout_title st.
Proof.
  unfold scan_step, names_title. simpl.
  destruct (workout_title st) as [|c t]; simpl; [|reflexivity].
  destruct (looks_like_title line); simpl; [|reflexivity].
  now destruct (Str.strip line).
Qed.

Lemma scan_step_date (st : Header) (line : str) :
  workout_date (scan_step st line)
  = if looks_like_date line then Str.strip line else workout_date st.
Proof. reflexivity. Qed.

Lemma scan_step_found (st : Header) (line : str) :
  both_found (scan_step st line)
  = (negb (Str.is_empty (workout_title st)) || names_title line)
    && (negb (Str.is_empty (workout_date st)) || looks_like_date line).
Proof.
  unfold both_found. rewrite scan_step_title, scan_step_date. f_equal.
  - destruct (Str.is_empty (workout_title st)) eqn:E; simpl.
    + destruct (names_title line) eqn:N; [|reflexivity].
      now rewrite (names_title_strip _ N).
    + now rewrite E.
  - destruct (looks_like_date line) eqn:D.
    + rewrite (date_line_not_blank _ D). simpl. now rewrite orb_true_r.
    + now rewrite orb_false_r.
Qed.

(** The loop, read off the lines it scans. *)
Lemma scan_lines_spec (lines : list str) (st : Header) :
  scan_lines st lines
  = {| workout_title :=
         if Str.is_empty (workout_title st) then first_title lines
         else workout_title st;
       workout_date :=
         match find looks_like_date
                    (rev (scanned (negb (Str.is_empty (workout_title st)))
                                  (negb (Str.is_empty (workout_date st)))
                                  lines)) with
         | Some line => Str.strip line
         | None => workout_date st
         end |}.
Proof.
  revert st. induction lines as [|l rest IH]; intros st.
  - simpl. destruct st as [t d]. simpl. unfold first_title. simpl.
    now destruct t.
  - cbn [scan_lines scanned]. rewrite scan_step_found.
    set (ht := negb (Str.is_empty (workout_title st)) || names_title l).
    set (hd := negb (Str.is_empty (workout_date st)) || looks_like_date l).
    assert (Ht : negb (Str.is_empty (workout_title (scan_step st l))) = ht).
    { unfold ht. rewrite scan_step_title.
      destruct (Str.is_empty (workout_title st)) eqn:E; simpl.
      - destruct (names_title l) eqn:N; [|reflexivity].
        now rewrite (names_title_strip _ N).
      - now rewrite E. }
    assert (Hd : negb (Str.is_empty (workout_date (scan_step st l))) = hd).
    { unfold hd. rewrite scan_step_date.
      destruct (looks_like_date l) eqn:D.
      - rewrite (date_line_not_blank _ D). simpl. now rewrite orb_true_r.
      - now rewrite orb_false_r. }
    assert (Htitle :
              (if Str.is_empty (workout_title (scan_step st l))
               then first_title rest
               else workout_title (scan_step st l))
              = if Str.is_empty (workout_title st)
                then first_title (l :: rest) else workout_title st).
    { rewrite scan_step_title. unfold first_title. cbn [find].
      destruct (Str.is_empty (workout_title st)) eqn:E.
      - destruct (names_title l) eqn:N; [|reflexivity].
        rewrite (names_title_strip _ N). reflexivity.
      - now rewrite E. }
    destruct (ht && hd) eqn:Both.
    + (* the loop stops on this line *)
      destruct (scan_step st l) as [t' d'] eqn:Est. f_equal.
      * unfold ht in Both.
        pose proof (scan_step_title st l) as T. rewrite Est in T.
        simpl in T. rewrite T. unfold first_title. cbn [find].
        destruct (Str.is_empty (workout_title st)); [|reflexivity].
        simpl in Both. destruct (names_title l); [reflexivity|].
        discriminate.
      * pose proof (scan_step_date st l) as D. rewrite Est in D.
        simpl in D. rewrite D. simpl.
        now destruct (looks_like_date l).
    + (* the loop goes on *)
      rewrite IH, Ht, Hd, Htitle. f_equal.
      cbn [rev]. rewrite find_app. rewrite scan_step_date.
      destruct (find looks_like_date (rev (scanned ht hd rest)));
        [reflexivity|].
      simpl. now destruct (looks_like_date l).
Qed.

Lemma scan_text_spec (text : str) :
  scan_text text
  = {| workout_title := first_title (Str.split newline text);
       workout_date := last_date (scanned false false
                                          (Str.split newline text)) |}.
Proof.
  unfold scan_text. rewrite scan_lines_spec. reflexivity.
Qed.

(** Once both slots are filled the lines that follow are not read. *)
Lemma scan_lines_stops (pre post : list str) (st : Header) :
  both_found st = false ->
  both_found (scan_lines st pre) = true ->
  scan_lines st (pre ++ post) = scan_lines st pre.
Proof.
  revert st. induction pre as [|l pre IH]; intros st Hno Hyes.
  - simpl in Hyes. congruence.
  - cbn [app scan_lines] in *.
    destruct (both_found (scan_step st l)) eqn:B; [reflexivity|].
    now apply IH.
Qed.

Lemma scanned_before_date (pre rest : list str) (ht : bool) :
  Forall (fun x => looks_like_date x = false) pre ->
  scanned ht false (pre ++ rest)
  = pre ++ scanned (ht || existsb names_title pre) false rest.
Proof.
  revert ht. induction pre as [|l pre IH]; intros ht Hpre.
  - simpl. now rewrite orb_false_r.
  - inversion Hpre as [|? ? Hl Hrest]; subst.
    cbn [app scanned existsb]. rewrite Hl. cbn [orb].
    rewrite andb_false_r, IH by assumption.
    now rewrite orb_assoc.
Qed.

(** C3, as the code has it.  The title is the first title-candidate line
    whose trimmed text is not empty, and once set it is kept.  The date
    slot has no such guard: every date-candidate line that is read
    overwrites it, so the date is the last date candidate among the
    lines read.  Reading stops at the first line after which both slots
    are non-empty, and the lines behind it change nothing.  The date is
    thus the first date candidate whenever a title is already held at
    that line; date candidates met before any title are replaced by
    later ones that are read. *)
Theorem extract_title_first_date_last (text : str) :
  workout_title (scan_text text) = first_title (Str.split newline text)
  /\ workout_date (scan_text text)
     = last_date (scanned false false (Str.split newline text))
  /\ extract_workout_title_and_date text
     = header_label
         {| workout_title := first_title (Str.split newline text);
            workout_date :=
              last_date (scanned false false (Str.split newline text)) |}
  /\ (forall pre post,
         Str.split newline text = pre ++ post ->
         both_found (scan_lines no_header pre) = true ->
         scan_text text = scan_lines no_header pre)
  /\ (forall pre l post,
         Str.split newline text = pre ++ l :: post ->
         Forall (fun x => looks_like_date x = false) pre ->
         looks_like_date l = true ->
         existsb names_title (pre ++ [l]) = true ->
         workout_date (scan_text text) = Str.strip l).
Proof.
  unfold extract_workout_title_and_date. rewrite scan_text_spec.
  repeat split.
  - intros pre post Hsplit Hboth. rewrite <- scan_text_spec.
    unfold scan_text. rewrite Hsplit.
    now apply scan_lines_stops.
  - intros pre l post Hsplit Hpre Hl Htitle. simpl. rewrite Hsplit.
    rewrite scanned_before_date by assumption.
    cbn [scanned orb]. rewrite Hl, ?orb_true_r, ?andb_true_r.
    rewrite existsb_app in Htitle. cbn [existsb] in Htitle.
    rewrite orb_false_r in Htitle. rewrite Htitle.
    unfold last_date. rewrite rev_app_distr. simpl. now rewrite Hl.
Qed.

Lemma extract_title_first_date_last_witness :
  extract_workout_title_and_date
    (py "Leg Day" ++ nl ++ py "March 3 2024" ++ nl ++ py "Squat: 8/8/8")
  = py "March 3 2024 - Leg Day"
  /\ workout_date
       (scan_text
          (py "Leg Day" ++ nl ++ py "March 3 2024" ++ nl
              ++ py "Squat: 8/8/8"))
     = Str.strip "March 3 2024"
  /\ scan_text
       (py "Leg Day" ++ nl ++ py "March 3 2024" ++ nl ++ py "Squat: 8/8/8")
     = scan_lines no_header [py "Leg Day"; py "March 3 2024"].
Proof.
  pose proof (extract_title_first_date_last
                (py "Leg Day" ++ nl ++ py "March 3 2024" ++ nl
                    ++ py "Squat: 8/8/8"))
    as [_ [_ [Hlabel [Hstop Hdate]]]].
  split; [rewrite Hlabel; reflexivity|]. split.
  - apply (Hdate [py "Leg Day"] (py "March 3 2024") [py "Squat: 8/8/8"]).
    + reflexivity.
    + repeat constructor.
    + reflexivity.
    + reflexivity.
  - apply (Hstop [py "Leg Day"; py "March 3 2024"] [py "Squat: 8/8/8"]).
    + reflexivity.
    + reflexivity.
Defined.

(** C3 as stated fails.  In ["1 Jan", "2 Feb", "Leg Day"] the first date
    candidate is ["1 Jan"], yet the label carries ["2 Feb"]: the later
    candidate replaced it.  And a blank first line is a title candidate
    that does not become the title. *)
Lemma later_date_replaces_counterexample :
  first_date (Str.split newline
                (py "1 Jan" ++ nl ++ py "2 Feb" ++ nl ++ py "Leg Day"))
  = py "1 Jan"
  /\ workout_date
       (scan_text (py "1 Jan" ++ nl ++ py "2 Feb" ++ nl ++ py "Leg Day"))
     = py "2 Feb"
  /\ extract_workout_title_and_date
       (py "1 Jan" ++ nl ++ py "2 Feb" ++ nl ++ py "Leg Day")
     = py "2 Feb - Leg Day"
  /\ workout_date
       (scan_text (py "1 Jan" ++ nl ++ py "2 Feb" ++ nl ++ py "Leg Day"))
     <> first_date (Str.split newline
                      (py "1 Jan" ++ nl ++ py "2 Feb" ++ nl ++ py "Leg Day"))
  /\ find looks_like_title
          (Str.split newline (nl ++ py "Leg Day" ++ nl ++ py "5 Jan"))
     = Some []
  /\ workout_title (scan_text (nl ++ py "Leg Day" ++ nl ++ py "5 Jan"))
     = py "Leg Day".
Proof.
  repeat split; try reflexivity. vm_compute. discriminate.
Qed.

(** ** Numeric coercion of set cells *)

Lemma num_lstrip_id (s : str) :
  Forall (fun c => Num.isspace c = false) s -> Num.lstrip s = s.
Proof.
  intros H. destruct s as [|c s]; [reflexivity|].
  inversion H; subst. simpl. now rewrite H2.
Qed.

Lemma num_strip_id (s : str) :
  Forall (fun c => Num.isspace c = false) s -> Num.strip s = s.
Proof.
  intros H. unfold Num.strip. rewrite (num_lstrip_id s H).
  rewrite num_lstrip_id by now apply Forall_rev.
  apply rev_involutive.
Qed.

Lemma underscores_ok_plain (prev : ascii) (s : str) :
  Num.is_underscore prev = false ->
  Forall (fun c => Num.is_underscore c = false) s ->
  Num.underscores_ok prev s = true.
Proof.
  revert prev. induction s as [|c s IH]; intros prev Hp Hs; simpl.
  - now rewrite Hp.
  - inversion Hs; subst. rewrite H1, Hp. simpl. now apply IH.
Qed.

Lemma drop_underscores_id (s : str) :
  Forall (fun c => Num.is_underscore c = false) s ->
  Num.drop_underscores s = s.
Proof.
  unfold Num.drop_underscores.
  induction 1 as [|c s Hc _ IH]; simpl; [reflexivity|].
  now rewrite Hc, IH.
Qed.

Lemma isdigit_string (s : str) :
  Str.isdigit s = true ->
  exists c r, s = c :: r /\ Forall (fun x => Chr.isdigit x = true) s.
Proof.
  unfold Str.isdigit. intros H. apply andb_true_iff in H.
  destruct H as [Hne Hall]. destruct s as [|c r]; [discriminate|].
  exists c, r. split; [reflexivity|].
  apply Forall_forall. now apply forallb_forall.
Qed.

(** What the numeric readers see of a string of digit characters: no
    white space to drop, no underscore, no sign. *)
Lemma digit_string_prepared (s : str) :
  Str.isdigit s = true ->
  Num.strip s = s
  /\ Num.underscores_ok "000" s = true
  /\ Num.take_sign (Num.drop_underscores s) = (false, s).
Proof.
  intros H. destruct (isdigit_string s H) as [c [r [-> Hall]]].
  assert (Hsp : Forall (fun x => Num.isspace x = false) (c :: r)).
  { eapply Forall_impl; [|exact Hall]. intros x Hx.
    now destruct (isdigit_plain x Hx). }
  assert (Hun : Forall (fun x => Num.is_underscore x = false) (c :: r)).
  { eapply Forall_impl; [|exact Hall]. intros x Hx.
    now destruct (isdigit_plain x Hx) as [_ [? _]]. }
  split; [now apply num_strip_id|]. split.
  - now apply underscores_ok_plain.
  - rewrite drop_underscores_id by assumption.
    inversion Hall as [|? ? Hc _]; subst.
    destruct (isdigit_plain c Hc) as [_ [_ [Hm [Hp _]]]].
    unfold Num.take_sign. now rewrite Hm, Hp.
Qed.

Lemma py_int_digit_string (s : str) :
  Str.isdigit s = true ->
  Num.py_int s
  = if forallb Chr.isdecimal s
    then (if Num.max_str_digits <? length s then None
          else Some (Num.digits_value s))
    else None.
Proof.
  intros H. destruct (digit_string_prepared s H) as [Hs [Hu Ht]].
  unfold Num.py_int. rewrite Hs, Hu, Ht.
  destruct (isdigit_string s H) as [c [r [-> _]]]. cbn [Str.is_empty orb].
  destruct (forallb Chr.isdecimal (c :: r)); [|reflexivity].
  cbn [negb]. now destruct (Num.max_str_digits <? length (c :: r)).
Qed.

Lemma span_decimal_spec (s : str) :
  s = fst (Num.span_decimal s) ++ snd (Num.span_decimal s)
  /\ forallb Chr.isdecimal (fst (Num.span_decimal s)) = true
  /\ (snd (Num.span_decimal s) = []
      \/ exists c r, snd (Num.span_decimal s) = c :: r
                     /\ Chr.isdecimal c = false /\ In c s).
Proof.
  induction s as [|c s [IH1 [IH2 IH3]]]; simpl.
  - repeat split. now left.
  - destruct (Chr.isdecimal c) eqn:E.
    + destruct (Num.span_decimal s) as [ds r]. simpl in *.
      repeat split.
      * now rewrite <- IH1.
      * now rewrite E, IH2.
      * destruct IH3 as [->|[x [r' [-> [Hx Hin]]]]]; [now left|].
        right. exists x, r'. repeat split; auto.
    + simpl. repeat split. right. exists c, s. repeat split; auto.
Qed.

Lemma py_float_superscript (s : str) :
  Str.isdigit s = true -> forallb Chr.isdecimal s = false ->
  Num.py_float s = None.
Proof.
  intros H Hnd. destruct (digit_string_prepared s H) as [Hs [Hu Ht]].
  destruct (isdigit_string s H) as [c [r [Hcr Hall]]].
  unfold Num.py_float. rewrite Hs, Hu, Ht.
  assert (Hsp : Num.parse_special false s = None).
  { subst s. inversion Hall as [|? ? Hc _]; subst.
    destruct (isdigit_plain c Hc) as [_ [_ [_ [_ [_ [_ [Hi Hn]]]]]]].
    unfold Num.parse_special, Num.str_eqb.
    destruct (list_eq_dec ascii_dec (Str.lower (c :: r)) (py "inf")) as [E|_];
      [simpl in E; injection E as E _; contradiction|].
    destruct (list_eq_dec ascii_dec (Str.lower (c :: r)) (py "infinity"))
      as [E|_];
      [simpl in E; injection E as E _; contradiction|].
    destruct (list_eq_dec ascii_dec (Str.lower (c :: r)) (py "nan")) as [E|_];
      [simpl in E; injection E as E _; contradiction|].
    reflexivity. }
  rewrite Hsp. unfold Num.parse_number.
  destruct (span_decimal_spec s) as [Happ [Hdec Hrest]].
  destruct (Num.span_decimal s) as [ip r1]. simpl in *.
  destruct Hrest as [->|[x [r' [-> [Hx Hin]]]]].
  - rewrite app_nil_r in Happ. subst ip. congruence.
  - rewrite Forall_forall in Hall.
    destruct (isdigit_plain x (Hall x Hin))
      as [_ [_ [_ [_ [Hdot [Hexp _]]]]]].
    rewrite Hdot. destruct (Str.is_empty ip); simpl; [reflexivity|].
    now rewrite Hexp.
Qed.

Lemma decimal_string_isdigit (s : str) :
  is_decimal_string s = true -> Str.isdigit s = true.
Proof.
  unfold is_decimal_string, Str.isdigit. intros H.
  apply andb_true_iff in H. destruct H as [H1 H2]. rewrite H1. simpl.
  apply forallb_forall. intros x Hx. apply isdecimal_isdigit.
  rewrite forallb_forall in H2. now apply H2.
Qed.

(** The cells under the headers ["Set 1"], ..., ["Set N"] go through the
    coercion; the exercise and note cells are written as they are. *)
Lemma set_column_coerced (m j : nat) (v : str) :
  j < m ->
  data_value (table_columns m) (j + 2) v = coerce_set_value v.
Proof.
  intros Hj. unfold data_value, table_columns.
  replace (j + 2 - 1) with (S j) by lia. cbn [app nth].
  rewrite app_nth1 by (rewrite length_map, length_seq; exact Hj).
  rewrite (nth_indep _ [] (py "Set " ++ decimal_of_nat (0 + 1)))
    by (rewrite length_map, length_seq; exact Hj).
  rewrite (map_nth (fun j => py "Set " ++ decimal_of_nat (j + 1))).
  reflexivity.
Qed.

Lemma outer_columns_verbatim (m : nat) (v : str) :
  data_value (table_columns m) 1 v = VStr v
  /\ data_value (table_columns m) (m + 2) v = VStr v.
Proof.
  split; [reflexivity|].
  unfold data_value, table_columns.
  replace (m + 2 - 1) with (S m) by lia. cbn [app nth].
  rewrite app_nth2 by (rewrite length_map, length_seq; lia).
  rewrite length_map, length_seq, Nat.sub_diag. reflexivity.
Qed.

(** C8, as the code has it.  A set cell that is a string of at most 4300
    decimal digits is written as the integer it denotes.  A longer
    string of decimal digits is written unchanged: [int] raises
    [ValueError] on it, the [except] clause swallows that, and the float
    conversion is not tried.  Any other set cell goes through the float
    conversion and is written as that number when the conversion
    accepts it; when it does not, the original string is written.
    Nothing is raised.  ["10"] becomes the integer 10 and ["abc"] stays
    ["abc"].  This is the value stored in every cell of a set column. *)
Theorem coerce_set_value_spec (s : str) :
  coerce_set_value s
  = (if is_decimal_string s
     then (if length s <=? Num.max_str_digits
           then VInt (Num.digits_value s) else VStr s)
     else match Num.py_float s with
          | Some f => VFloat f
          | None => VStr s
          end)
  /\ coerce_set_value "10" = VInt 10
  /\ coerce_set_value "abc" = VStr "abc"
  /\ (forall m j, j < m ->
        data_value (table_columns m) (j + 2) s = coerce_set_value s).
Proof.
  split; [|split; [reflexivity | split; [reflexivity|]]].
  2: { intros m j Hj. now apply set_column_coerced. }
  unfold coerce_set_value.
  destruct (Str.isdigit s) eqn:D.
  - rewrite (py_int_digit_string s D).
    unfold is_decimal_string.
    destruct (isdigit_string s D) as [c [r [-> _]]].
    cbn [Str.is_empty negb andb].
    destruct (forallb Chr.isdecimal (c :: r)) eqn:F.
    + rewrite Nat.leb_antisym.
      now destruct (Num.max_str_digits <? length (c :: r)).
    + now rewrite (py_float_superscript (c :: r) D F).
  - destruct (is_decimal_string s) eqn:E.
    + apply decimal_string_isdigit in E. congruence.
    + now destruct (Num.py_float s).
Qed.

Lemma coerce_set_value_spec_witness :
  data_value (table_columns 2) (0 + 2) "10" = VInt 10.
Proof.
  rewrite (proj2 (proj2 (proj2 (coerce_set_value_spec "10"))) 2 0);
    [reflexivity | lia].
Defined.

(** C8 as stated fails: a cell of 4301 ones is a string of decimal
    digits, and it is written unchanged, not as an integer. *)
Lemma long_digit_string_counterexample :
  is_decimal_string (repeat "1"%char 4301) = true
  /\ coerce_set_value (repeat "1"%char 4301)
     = VStr (repeat "1"%char 4301)
  /\ coerce_set_value (repeat "1"%char 4301)
     <> VInt (Num.digits_value (repeat "1"%char 4301)).
Proof.
  assert (E : coerce_set_value (repeat "1"%char 4301)
              = VStr (repeat "1"%char 4301))
    by (vm_compute; reflexivity).
  split; [vm_compute; reflexivity|]. split; [exact E|].
  rewrite E. discriminate.
Qed.

(** ** HTTP handler *)

(** C9. A POST whose [files[]] list is empty is answered with status 400
    and the body [{"error": "No files received"}]; the handler prints
    that message and returns before any file is staged, any OCR call,
    any parsing and any workbook composition. *)
Theorem no_files_is_400
        (save : Upload -> str -> option str)
        (extract_text_from_image : Upload -> str -> str + str)
        (workbook_error : list DfTuple -> option str) :
  index save extract_text_from_image workbook_error
        {| method := POST; files := [] |}
  = (Json [(py "error", py "No files received")] 400, [PrintNoFiles])
  /\ existsb is_processing
             (snd (index save extract_text_from_image workbook_error
                         {| method := POST; files := [] |})) = false.
Proof. split; reflexivity. Qed.

(** ** Workbook Composer *)

Lemma write_headers_merged (titles : list str) (ws : Worksheet)
      (row col : nat) :
  ws_merged (write_headers ws row col titles) = ws_merged ws.
Proof.
  revert ws col. induction titles as [|t ts IH]; intros ws col; simpl;
    [reflexivity|]. now rewrite IH.
Qed.

Lemma write_row_merged (row_data : list str) (ws : Worksheet)
      (columns : list str) (row col : nat) :
  ws_merged (write_row ws columns row col row_data) = ws_merged ws.
Proof.
  revert ws col. induction row_data as [|v vs IH]; intros ws col; simpl;
    [reflexivity|]. now rewrite IH.
Qed.

Lemma write_rows_merged (values : list (list str)) (ws : Worksheet)
      (columns : list str) (row : nat) :
  ws_merged (write_rows ws columns row values) = ws_merged ws.
Proof.
  revert ws row. induction values as [|v vs IH]; intros ws row; simpl;
    [reflexivity|]. now rewrite IH, write_row_merged.
Qed.

(** Writes on another row leave a cell as it was. *)
Lemma put_cell_other (ws : Worksheet) (r c r' c' : nat) (cell : Cell) :
  r <> r' -> ws_cell (put_cell ws r' c' cell) r c = ws_cell ws r c.
Proof.
  intros Hne. unfold ws_cell, put_cell. cbn [ws_cells lookup_cell].
  unfold pos_eqb. cbn [fst snd].
  destruct (r' =? r) eqn:E; [|reflexivity].
  apply Nat.eqb_eq in E. congruence.
Qed.

Lemma write_headers_other (titles : list str) (ws : Worksheet)
      (row col r c : nat) :
  r <> row -> ws_cell (write_headers ws row col titles) r c = ws_cell ws r c.
Proof.
  intros Hne. revert ws col.
  induction titles as [|t ts IH]; intros ws col; simpl; [reflexivity|].
  now rewrite IH, put_cell_other.
Qed.

Lemma write_row_other (row_data : list str) (ws : Worksheet)
      (columns : list str) (row col r c : nat) :
  r <> row ->
  ws_cell (write_row ws columns row col row_data) r c = ws_cell ws r c.
Proof.
  intros Hne. revert ws col.
  induction row_data as [|v vs IH]; intros ws col; simpl; [reflexivity|].
  now rewrite IH, put_cell_other.
Qed.

Lemma write_rows_other (values : list (list str)) (ws : Worksheet)
      (columns : list str) (row r c : nat) :
  r < row ->
  ws_cell (write_rows ws columns row values) r c = ws_cell ws r c.
Proof.
  revert ws row. induction values as [|v vs IH]; intros ws row Hlt; simpl;
    [reflexivity|].
  rewrite IH by lia. apply write_row_other. lia.
Qed.

Lemma ws_cell_merge (ws : Worksheet) (rg : MergeRange) (r c : nat) :
  ws_cell (merge_cells ws rg) r c = ws_cell ws r c.
Proof. reflexivity. Qed.

Lemma write_table_other (t : DfTuple) (ws : Worksheet)
      (start_row r c : nat) :
  r < start_row ->
  ws_cell (fst (write_table (ws, start_row) t)) r c = ws_cell ws r c
  /\ start_row <= snd (write_table (ws, start_row) t).
Proof.
  intros Hlt. destruct t as [df name label|n]; simpl; [|split; auto].
  split; [|lia].
  rewrite write_rows_other by lia. rewrite write_headers_other by lia.
  unfold write_title. rewrite ws_cell_merge. apply put_cell_other. lia.
Qed.

Lemma fold_write_table_other (dataframes : list DfTuple) (ws : Worksheet)
      (start_row r c : nat) :
  r < start_row ->
  ws_cell (fst (fold_left write_table dataframes (ws, start_row))) r c
  = ws_cell ws r c.
Proof.
  revert ws start_row.
  induction dataframes as [|t ts IH]; intros ws start_row Hlt;
    [reflexivity|].
  cbn [fold_left].
  destruct (write_table_other t ws start_row r c Hlt) as [Hcell Hrow].
  destruct (write_table (ws, start_row) t) as [ws' row'].
  cbn [fst snd] in Hcell, Hrow. rewrite IH by lia. exact Hcell.
Qed.

Lemma write_title_cell (ws : Worksheet) (r : nat) (df : DataFrame)
      (label : str) :
  cell_value (ws_cell (write_title ws r df label) r 1) = VStr label
  /\ ws_merged (write_title ws r df label)
     = ws_merged ws ++ [(r, 1, r, length (df_columns df) + 1)].
Proof.
  split; [|reflexivity].
  unfold write_title. rewrite ws_cell_merge.
  unfold ws_cell, put_cell. cbn [ws_cells lookup_cell].
  unfold pos_eqb. cbn [fst snd]. now rewrite Nat.eqb_refl.
Qed.

(** The composer, block by block. *)
Lemma fold_write_table_blocks (dataframes : list DfTuple) (ws : Worksheet)
      (start_row : nat) :
  ws_merged (fst (fold_left write_table dataframes (ws, start_row)))
  = ws_merged ws ++ map fst (title_blocks start_row dataframes)
  /\ Forall (title_in_place
               (fst (fold_left write_table dataframes (ws, start_row))))
            (title_blocks start_row dataframes).
Proof.
  revert ws start_row.
  induction dataframes as [|t ts IH]; intros ws start_row.
  - simpl. split; [now rewrite app_nil_r | constructor].
  - destruct t as [df name label|n].
    + cbn [fold_left write_table title_blocks map fst].
      set (ws1 := write_rows
                    (write_headers (write_title ws start_row df label)
                                   (start_row + 1) 1 (df_columns df))
                    (df_columns df) (start_row + 1 + 1) (df_values df)).
      destruct (IH ws1 (start_row + 1 + 1 + (length (df_values df) + 3)))
        as [Hm Hc].
      split.
      * rewrite Hm. unfold ws1.
        rewrite write_rows_merged, write_headers_merged.
        destruct (write_title_cell ws start_row df label) as [_ ->].
        now rewrite <- app_assoc.
      * constructor; [|exact Hc].
        unfold title_in_place.
        rewrite fold_write_table_other by lia. unfold ws1.
        rewrite write_rows_other by lia.
        rewrite write_headers_other by lia.
        now destruct (write_title_cell ws start_row df label) as [-> _].
    + cbn [fold_left write_table title_blocks]. apply IH.
Qed.

Lemma create_excel_blocks (dataframes : list DfTuple) :
  ws_merged (create_excel dataframes)
  = map fst (title_blocks 1 dataframes)
  /\ Forall (title_in_place (create_excel dataframes))
            (title_blocks 1 dataframes).
Proof. apply (fold_write_table_blocks dataframes empty_sheet 1). Qed.

Lemma table_columns_length (m : nat) : length (table_columns m) = m + 2.
Proof.
  unfold table_columns. rewrite !length_app, length_map, length_seq.
  simpl. lia.
Qed.

Lemma make_frame_shape (text : str) :
  df_columns (make_frame text)
  = table_columns (snd (transcribe_text_to_table text))
  /\ df_values (make_frame text) = fst (transcribe_text_to_table text).
Proof.
  unfold make_frame. now destruct (transcribe_text_to_table text).
Qed.

(** The frame the handler builds is well formed: every row has one cell
    per column. *)
Lemma make_frame_rectangular (text : str) :
  Forall (fun row => length row = length (df_columns (make_frame text)))
         (df_values (make_frame text)).
Proof.
  destruct (make_frame_shape text) as [-> ->].
  rewrite table_columns_length. apply transcribe_row_width.
Qed.

Lemma handler_blocks (texts : list str) (i start_row : nat) :
  title_blocks start_row (handler_tuples i texts)
  = title_merges start_row texts.
Proof.
  revert i start_row. induction texts as [|t ts IH]; intros i start_row;
    [reflexivity|].
  cbn [handler_tuples handler_tuple title_blocks title_merges].
  destruct (make_frame_shape t) as [-> ->].
  rewrite table_columns_length, IH.
  f_equal.
  - f_equal. f_equal. lia.
  - f_equal. unfold Row. lia.
Qed.

Lemma process_files_frames
      (save : Upload -> str -> option str)
      (ocr : Upload -> str -> str + str)
      (todo : list Upload) (i : nat) (dfs : list DfTuple)
      (log : list Event) (dfs' : list DfTuple) (log' : list Event) :
  process_files save ocr i todo dfs log = (inr dfs', log') ->
  exists texts,
    Forall2 (fun file text => ocr file (staged_path file) = inl text)
            todo texts
    /\ length texts = length todo /\ dfs' = dfs ++ handler_tuples i texts.
Proof.
  revert i dfs log. induction todo as [|file rest IH]; intros i dfs log H.
  - simpl in H. injection H as <- _. exists [].
    split; [constructor|]. split; [reflexivity|].
    simpl. now rewrite app_nil_r.
  - cbn [process_files] in H.
    destruct (save file (path_join UPLOAD_FOLDER (filename file)));
      [discriminate|].
    destruct (ocr file (path_join UPLOAD_FOLDER (filename file)))
      as [text|msg] eqn:Hocr; [|discriminate].
    apply IH in H. destruct H as [texts [Hall [Hlen ->]]].
    exists (text :: texts). split; [now constructor|].
    split; [simpl; now rewrite Hlen|].
    rewrite <- app_assoc. reflexivity.
Qed.

(** C6, as the code has it.  In the sheet the handler sends back there
    is one title per upload, in upload order, made from the text OCR
    gave for that upload: the title cell holds the header label of that
    text and is merged over columns 1 to [len(df.columns) + 1], that is
    [setColumnCount + 3] for the table of that text: the exercise
    column, the set columns, the note column and one column more. *)
Theorem title_merged_one_past_note
        (save : Upload -> str -> option str)
        (extract_text_from_image : Upload -> str -> str + str)
        (workbook_error : list DfTuple -> option str)
        (request : Request) (ws : Worksheet) (name mimetype : str)
        (log : list Event) :
  index save extract_text_from_image workbook_error request
  = (SendFile ws name mimetype, log) ->
  exists texts,
    Forall2 (fun file text =>
               extract_text_from_image file (staged_path file) = inl text)
            (files request) texts
    /\ length texts = length (files request)
    /\ ws_merged ws = map fst (title_merges 1 texts)
    /\ Forall (title_in_place ws) (title_merges 1 texts).
Proof.
  unfold index. intros H.
  destruct (method request); [discriminate|].
  destruct (files request) as [|f fs] eqn:Hf; [discriminate|].
  destruct (process_files save extract_text_from_image 0 (f :: fs) [] [])
    as [[msg|dfs] log0] eqn:Hp; [discriminate|].
  destruct (workbook_error dfs); [discriminate|].
  injection H as <- _ _ _.
  apply process_files_frames in Hp.
  destruct Hp as [texts [Hall [Hlen ->]]].
  exists texts. split; [exact Hall|]. split; [exact Hlen|]. simpl.
  destruct (create_excel_blocks (handler_tuples 0 texts)) as [Hm Hc].
  rewrite handler_blocks in Hm, Hc. now split.
Qed.

Lemma title_merged_one_past_note_witness :
  exists texts,
    Forall2 (fun file text => ocr_echo file (staged_path file) = inl text)
            (files one_squat_upload) texts
    /\ length texts = length (files one_squat_upload)
    /\ ws_merged (create_excel [handler_tuple 0 "Squat: 8/8"])
       = map fst (title_merges 1 texts)
    /\ Forall (title_in_place (create_excel [handler_tuple 0 "Squat: 8/8"]))
              (title_merges 1 texts).
Proof.
  eapply (title_merged_one_past_note save_ok ocr_echo workbook_ok
                                     one_squat_upload).
  reflexivity.
Defined.

(** C6 as stated fails: for ["Squat: 8/8"] the table has 2 set columns,
    and the title is merged over columns 1 to 5, not 1 to 4. *)
Lemma title_merge_width_counterexample :
  snd (transcribe_text_to_table "Squat: 8/8") = 2
  /\ ws_merged (sent_sheet (fst (index save_ok ocr_echo workbook_ok
                                       one_squat_upload)))
     = [(1, 1, 1, 5)]
  /\ ws_merged (sent_sheet (fst (index save_ok ocr_echo workbook_ok
                                       one_squat_upload)))
     <> [(1, 1, 1, snd (transcribe_text_to_table "Squat: 8/8") + 2)].
Proof.
  repeat split; try reflexivity. vm_compute. discriminate.
Qed.

Lemma transcribe_skips_unqualified_witness :
  Str.split newline (py "Leg day" ++ nl ++ squat_line)
  = [] ++ py "Leg day" :: [squat_line]
  /\ transcribe_text_to_table (py "Leg day" ++ nl ++ squat_line)
     = transcribe_lines [squat_line].
Proof.
  split; [reflexivity|].
  apply (transcribe_skips_unqualified
           (py "Leg day" ++ nl ++ squat_line) [] [squat_line] (py "Leg day")).
  - reflexivity.
  - left. apply char_in_false. reflexivity.
Defined.

(** ** Worked examples *)

Example transcribe_mixed_lines :
  transcribe_text_to_table
    (py "Leg day" ++ nl ++ py "Squat: 8/8/ 10" ++ nl
        ++ py "1. Bench. 10/12 (easy)" ++ nl ++ py "Curl 5/5")
  = ([[py "Squat"; py "8"; py "8"; py "10"; py ""];
      [py "1"; py ""; py ""; py ""; py ""]], 3).
Proof. reflexivity. Qed.

Example transcribe_no_rows :
  transcribe_text_to_table "" = ([], 0).
Proof. reflexivity. Qed.

(** A superscript two passes [isdigit()], is kept as a set piece, and is
    written unchanged because [int] rejects it. *)
Example superscript_piece :
  transcribe_text_to_table (py "Row: " ++ ["178"%char] ++ py "/5")
  = ([[py "Row"; ["178"%char]; py "5"; py ""]], 2)
  /\ coerce_set_value ["178"%char] = VStr ["178"%char].
Proof. split; reflexivity. Qed.

Example label_defaults :
  extract_workout_title_and_date "" = py "Unknown Date - Workout"
  /\ extract_workout_title_and_date "a/b" = py "Unknown Date - Workout".
Proof. split; reflexivity. Qed.

(** A line can win both slots. *)
Example label_same_line :
  extract_workout_title_and_date
    (nl ++ py "  " ++ nl ++ py "Update now" ++ nl ++ py "Leg Day")
  = py "Update now - Update now".
Proof. reflexivity. Qed.

(** Accepted and refused literals. *)
Example float_literals :
  map Num.py_float
      [py "1_0"; py "1_.5"; py "1e1_0"; py "1."; py ".5"; py "."; py "1e";
       py "-Infinity"; py "nAn"; py "  1.5 "; py "0x10"; py "-1.25e-3";
       py ""; py "abc"]
  = [Some (Num.FNum false 5629499534213120 (-49)); None;
     Some (Num.FNum false 5242880000000000 (-19));
     Some (Num.FNum false 4503599627370496 (-52));
     Some (Num.FNum false 4503599627370496 (-53)); None; None;
     Some (Num.FInf true); Some (Num.FNaN false);
     Some (Num.FNum false 6755399441055744 (-52)); None;
     Some (Num.FNum true 5764607523034235 (-62)); None; None].
Proof. vm_compute. reflexivity. Qed.

(** Rounding to binary64: equal decimals give one value, ties go to the
    even mantissa, large literals overflow to infinity and tiny ones
    fall to the subnormals or to zero. *)
Example float_rounding :
  map Num.py_float
      [py "1.5"; py "1.50"; py "0.1"; py "9007199254740993";
       py "9007199254740995"; py "1.7976931348623157e308";
       py "1.7976931348623159e308"; py "1e999"; py "5e-324";
       py "2.4703282292062327e-324"; py "2.4703282292062328e-324";
       py "1e-400"; py "-0"]
  = [Some (Num.FNum false 6755399441055744 (-52));
     Some (Num.FNum false 6755399441055744 (-52));
     Some (Num.FNum false 7205759403792794 (-56));
     Some (Num.FNum false 4503599627370496 1);
     Some (Num.FNum false 4503599627370498 1);
     Some (Num.FNum false 9007199254740991 971); Some (Num.FInf false);
     Some (Num.FInf false); Some (Num.FNum false 1 (-1074));
     Some (Num.FNum false 0 0); Some (Num.FNum false 1 (-1074));
     Some (Num.FNum false 0 0); Some (Num.FNum true 0 0)].
Proof. vm_compute. reflexivity. Qed.

Example int_literals :
  map Num.py_int [py "10"; py "007"; py "1_0"; py "-5"; py " 5 "; py "";
                  py "1.0"; py "5_"]
  = [Some 10%Z; Some 7%Z; Some 10%Z; Some (-5)%Z; Some 5%Z; None; None;
     None].
Proof. reflexivity. Qed.

Example get_probe
        (save : Upload -> str -> option str)
        (ocr : Upload -> str -> str + str)
        (workbook_error : list DfTuple -> option str) :
  index save ocr workbook_error {| method := GET; files := [] |}
  = (Json [(py "message", py "Upload your files")] 200, []).
Proof. reflexivity. Qed.

Example failed_ocr_is_500 :
  index save_ok (fun _ _ => inr (py "quota exceeded")) workbook_ok
        one_squat_upload
  = (Json [(py "error", py "quota exceeded")] 500,
     [PrintSaving "squat.png" "uploads/squat.png";
      SaveFile "uploads/squat.png"; CallOcr "uploads/squat.png";
      PrintError "quota exceeded"]).
Proof. reflexivity. Qed.

(** A raise inside [create_excel] comes after the whole loop. *)
Example failed_workbook_is_500 :
  fst (index save_ok ocr_echo (fun _ => Some (py "cannot be used"))
             one_squat_upload)
  = Json [(py "error", py "cannot be used")] 500
  /\ existsb is_compose
             (snd (index save_ok ocr_echo (fun _ => Some (py "cannot be used"))
                         one_squat_upload)) = true.
Proof. split; reflexivity. Qed.

(** * Further properties of the code *)

(** ** Splitting and trimming *)

Lemma split_first_is_prefix (sep : ascii) (s : str) :
  nth 0 (Str.split sep s) [] = before_first sep s.
Proof.
  induction s as [|c s IH]; simpl; [reflexivity|].
  destruct (Ascii.eqb c sep); [reflexivity|].
  pose proof (split_not_nil sep s) as Hn.
  destruct (Str.split sep s) as [|p ps]; [contradiction|].
  simpl in *. now rewrite IH.
Qed.

Lemma split_app_sep (sep : ascii) (a b : str) :
  Str.split sep (a ++ sep :: b) = Str.split sep a ++ Str.split sep b.
Proof.
  induction a as [|c a IH]; simpl.
  - now rewrite Ascii.eqb_refl.
  - destruct (Ascii.eqb c sep); [now rewrite IH|]. rewrite IH.
    pose proof (split_not_nil sep a) as Hn.
    now destruct (Str.split sep a).
Qed.

(** X1. [text.split(sep)] loses nothing: the pieces joined by the
    separator are the text again, and no piece holds the separator. *)
Theorem split_join_round_trip (sep : ascii) (text : str) :
  join sep (Str.split sep text) = text
  /\ Forall (fun piece => ~ In sep piece) (Str.split sep text).
Proof.
  split.
  - induction text as [|c s IH]; [reflexivity|]. cbn [Str.split].
    pose proof (split_not_nil sep s) as Hn.
    destruct (Str.split sep s) as [|p ps] eqn:Es; [contradiction|].
    destruct (Ascii.eqb c sep) eqn:E.
    + apply Ascii.eqb_eq in E. subst c.
      change (join sep ([] :: p :: ps))
        with ([] ++ sep :: join sep (p :: ps)).
      now rewrite IH.
    + destruct ps as [|q qs].
      * change (c :: p = c :: s). f_equal. exact IH.
      * change ((c :: p) ++ sep :: join sep (q :: qs) = c :: s).
        change (p ++ sep :: join sep (q :: qs) = s) in IH.
        now rewrite <- IH.
  - eapply Forall_impl; [|apply split_pieces]. now intros p [H _].
Qed.

Lemma lstrip_idem (s : str) : Str.lstrip (Str.lstrip s) = Str.lstrip s.
Proof.
  induction s as [|c s IH]; simpl; [reflexivity|].
  destruct (Chr.isspace c) eqn:E; [exact IH|]. simpl. now rewrite E.
Qed.

Lemma lstrip_head (s : str) :
  Str.lstrip s = []
  \/ exists c r, Str.lstrip s = c :: r /\ Chr.isspace c = false.
Proof.
  induction s as [|c s IH]; simpl; [now left|].
  destruct (Chr.isspace c) eqn:E; [exact IH|].
  right. now exists c, s.
Qed.

Lemma lstrip_keeps_last (u : str) (c : ascii) :
  Chr.isspace c = false ->
  exists v, Str.lstrip (u ++ [c]) = v ++ [c].
Proof.
  intros Hc. induction u as [|x u IH]; simpl.
  - rewrite Hc. now exists [].
  - destruct (Chr.isspace x); [exact IH|]. now exists (x :: u).
Qed.

(** Trimming the right end keeps a non-space head. *)
Lemma rstrip_keeps_head (c : ascii) (r : str) :
  Chr.isspace c = false ->
  exists r', Str.rstrip (c :: r) = c :: r'.
Proof.
  intros Hc. unfold Str.rstrip. simpl.
  destruct (lstrip_keeps_last (rev r) c Hc) as [v ->].
  rewrite rev_app_distr. simpl. now exists (rev v).
Qed.

Lemma rstrip_idem (s : str) : Str.rstrip (Str.rstrip s) = Str.rstrip s.
Proof.
  unfold Str.rstrip. now rewrite rev_involutive, lstrip_idem.
Qed.

Lemma strip_idem (s : str) : Str.strip (Str.strip s) = Str.strip s.
Proof.
  unfold Str.strip.
  assert (H : Str.lstrip (Str.rstrip (Str.lstrip s))
              = Str.rstrip (Str.lstrip s)).
  { destruct (lstrip_head s) as [->|[c [r [-> Hc]]]]; [reflexivity|].
    destruct (rstrip_keeps_head c r Hc) as [r' ->]. simpl.
    now rewrite Hc. }
  now rewrite H, rstrip_idem.
Qed.

(** ** Table Builder *)

Lemma filter_none {A : Type} (f : A -> bool) (l : list A) :
  Forall (fun x => f x = false) l -> filter f l = [].
Proof.
  induction 1 as [|x l Hx _ IH]; simpl; [reflexivity|]. now rewrite Hx.
Qed.

(** X2. A text without any ['/'], the empty text included, gives the
    empty table of width 0. *)
Theorem transcribe_without_slash (text : str) :
  ~ In "/"%char text -> transcribe_text_to_table text = ([], 0).
Proof.
  intros Hn. unfold transcribe_text_to_table.
  rewrite transcribe_lines_spec. unfold rows_of.
  rewrite filter_none; [reflexivity|].
  eapply Forall_impl; [|apply (split_pieces newline text)].
  intros line [_ Hsub]. apply qualifies_false_iff. left.
  intros H. apply Hn. now apply Hsub.
Qed.

Lemma transcribe_without_slash_witness :
  transcribe_text_to_table (py "Leg day" ++ nl ++ py "rest") = ([], 0).
Proof.
  apply transcribe_without_slash. apply char_in_false. reflexivity.
Defined.

(** X3. The table has one row per qualifying line, in line order, and
    the exercise cell of a row is the trimmed text in front of the first
    colon of the normalised line. *)
Theorem rows_follow_qualifying_lines (text : str) :
  map row_exercise (fst (transcribe_text_to_table text))
  = map (fun line => Str.strip (before_first ":" (normalized line)))
        (filter qualifies (Str.split newline text)).
Proof.
  rewrite transcribe_text_spec. simpl. unfold rows_of. rewrite map_map.
  apply map_ext. intros line. unfold row_of_line.
  now rewrite row_exercise_line_row, split_first_is_prefix.
Qed.

Lemma set_pieces_numeric (part : str) :
  Forall numeric_or_empty (set_pieces part).
Proof.
  unfold set_pieces. apply Forall_forall. intros cell Hin.
  apply in_map_iff in Hin. destruct Hin as [s [<- Hs]].
  apply filter_In in Hs. destruct Hs as [_ Hk]. unfold keep_piece in Hk.
  apply orb_true_iff in Hk. destruct Hk as [Hk|Hk]; [now right|].
  left. now destruct (Str.strip s).
Qed.

Lemma rows_of_numeric (m : nat) (lines : list str) :
  Forall (fun row => Forall numeric_or_empty (row_sets row))
         (rows_of m lines).
Proof.
  apply Forall_forall.
  intros row Hin. unfold rows_of in Hin. apply in_map_iff in Hin.
  destruct Hin as [line [<- _]]. unfold row_of_line.
  rewrite row_sets_line_row, pad_sets_repeat. apply Forall_app. split.
  - apply set_pieces_numeric.
  - apply Forall_forall. intros cell Hc. apply repeat_spec in Hc.
    now left.
Qed.

(** X4. Every set cell of the table is the empty marker or a string of
    digit characters: nothing else survives the filter and the padding. *)
Theorem set_cells_numeric_or_empty (text : str) :
  Forall (fun row => Forall numeric_or_empty (row_sets row))
         (fst (transcribe_text_to_table text)).
Proof.
  rewrite transcribe_text_spec. simpl. apply rows_of_numeric.
Qed.

Lemma list_max_attained (l : list nat) :
  0 < list_max l -> In (list_max l) l.
Proof.
  induction l as [|x l IH]; simpl; [lia|]. intros Hpos.
  destruct (Nat.max_spec x (list_max l)) as [[Hlt ->]|[Hle ->]].
  - right. apply IH. lia.
  - now left.
Qed.

(** X5. A positive table width is reached by a line of the text: some
    qualifying line has exactly [max_sets] set pieces, so its row
    carries no padding. *)
Theorem width_is_attained (text : str) :
  0 < snd (transcribe_text_to_table text) ->
  exists line,
    In line (Str.split newline text)
    /\ qualifies line = true
    /\ piece_count line = snd (transcribe_text_to_table text)
    /\ row_sets (row_of_line (snd (transcribe_text_to_table text)) line)
       = set_pieces (second_part line).
Proof.
  unfold transcribe_text_to_table. rewrite transcribe_lines_spec. simpl.
  intros Hpos. apply list_max_attained in Hpos.
  apply in_map_iff in Hpos. destruct Hpos as [line [Hc Hin]].
  apply filter_In in Hin. destruct Hin as [Hin Hq].
  exists line. repeat split; try assumption.
  unfold row_of_line. rewrite row_sets_line_row, pad_sets_repeat.
  fold (second_part line). rewrite <- Hc. unfold piece_count.
  now rewrite Nat.sub_diag, app_nil_r.
Qed.

Lemma width_is_attained_witness :
  exists line,
    In line (Str.split newline (bench_line ++ nl ++ squat_line))
    /\ qualifies line = true
    /\ piece_count line = 2.
Proof.
  destruct (width_is_attained (bench_line ++ nl ++ squat_line))
    as [line [H1 [H2 [H3 _]]]].
  - vm_compute. lia.
  - exists line. repeat split; assumption.
Defined.

Lemma pad_sets_again (sets : list str) (m1 m : nat) :
  m1 <= m -> pad_sets (pad_sets sets m1) m = pad_sets sets m.
Proof.
  intros Hle. rewrite !pad_sets_repeat, length_app, repeat_length.
  rewrite <- app_assoc, <- repeat_app. do 2 f_equal. lia.
Qed.

Lemma rows_of_cells (m : nat) (lines : list str) :
  map row_exercise (rows_of m lines)
  = map (fun l => Str.strip (before_first ":" (normalized l)))
        (filter qualifies lines)
  /\ map row_note (rows_of m lines)
     = map (fun l => extra_info_of (second_part l)) (filter qualifies lines)
  /\ map row_sets (rows_of m lines)
     = map (fun l => pad_sets (set_pieces (second_part l)) m)
           (filter qualifies lines).
Proof.
  unfold rows_of. rewrite !map_map. repeat split; apply map_ext;
    intros l; unfold row_of_line.
  - now rewrite row_exercise_line_row, split_first_is_prefix.
  - now rewrite row_note_line_row.
  - now rewrite row_sets_line_row.
Qed.

Lemma rows_of_repad (m1 m : nat) (lines : list str) :
  m1 <= m ->
  map row_sets (rows_of m lines)
  = map (fun sets => pad_sets sets m) (map row_sets (rows_of m1 lines)).
Proof.
  intros Hle.
  destruct (rows_of_cells m lines) as [_ [_ ->]].
  destruct (rows_of_cells m1 lines) as [_ [_ ->]].
  rewrite map_map. apply map_ext. intros l.
  now rewrite pad_sets_again.
Qed.

(** X6. Tables compose.  The table of [text1], a newline, [text2] is as
    wide as the wider of the two tables, and its rows are the rows of
    the first table followed by the rows of the second: same exercise
    cells, same notes, and the set cells padded on to the common
    width. *)
Theorem transcribe_concatenation (text1 text2 : str) :
  snd (transcribe_text_to_table (text1 ++ nl ++ text2))
  = Nat.max (snd (transcribe_text_to_table text1))
            (snd (transcribe_text_to_table text2))
  /\ map row_exercise (fst (transcribe_text_to_table (text1 ++ nl ++ text2)))
     = map row_exercise (fst (transcribe_text_to_table text1))
       ++ map row_exercise (fst (transcribe_text_to_table text2))
  /\ map row_note (fst (transcribe_text_to_table (text1 ++ nl ++ text2)))
     = map row_note (fst (transcribe_text_to_table text1))
       ++ map row_note (fst (transcribe_text_to_table text2))
  /\ map row_sets (fst (transcribe_text_to_table (text1 ++ nl ++ text2)))
     = map (fun sets =>
              pad_sets sets
                (snd (transcribe_text_to_table (text1 ++ nl ++ text2))))
           (map row_sets (fst (transcribe_text_to_table text1))
            ++ map row_sets (fst (transcribe_text_to_table text2))).
Proof.
  assert (Hw : snd (transcribe_text_to_table (text1 ++ nl ++ text2))
               = Nat.max (snd (transcribe_text_to_table text1))
                         (snd (transcribe_text_to_table text2))).
  { unfold transcribe_text_to_table. rewrite !transcribe_lines_spec.
    cbn [snd]. change (text1 ++ nl ++ text2) with (text1 ++ newline :: text2).
    now rewrite split_app_sep, filter_app, map_app, list_max_app. }
  split; [exact Hw|].
  rewrite (transcribe_text_spec (text1 ++ nl ++ text2)),
          (transcribe_text_spec text1), (transcribe_text_spec text2).
  cbn [fst].
  set (m := snd (transcribe_text_to_table (text1 ++ nl ++ text2))) in *.
  set (m1 := snd (transcribe_text_to_table text1)) in *.
  set (m2 := snd (transcribe_text_to_table text2)) in *.
  change (text1 ++ nl ++ text2) with (text1 ++ newline :: text2).
  rewrite split_app_sep.
  assert (Happ : rows_of m (Str.split newline text1
                              ++ Str.split newline text2)
                 = rows_of m (Str.split newline text1)
                   ++ rows_of m (Str.split newline text2)).
  { unfold rows_of. now rewrite filter_app, map_app. }
  rewrite Happ, !map_app.
  destruct (rows_of_cells m (Str.split newline text1)) as [E1 [N1 _]].
  destruct (rows_of_cells m (Str.split newline text2)) as [E2 [N2 _]].
  destruct (rows_of_cells m1 (Str.split newline text1)) as [E1' [N1' _]].
  destruct (rows_of_cells m2 (Str.split newline text2)) as [E2' [N2' _]].
  repeat split.
  - now rewrite E1, E2, E1', E2'.
  - now rewrite N1, N2, N1', N2'.
  - rewrite (rows_of_repad m1 m), (rows_of_repad m2 m) by lia.
    reflexivity.
Qed.

(** X7. The exercise cell of every row is trimmed (trimming it again
    changes nothing) and holds neither [':'] nor ['.']. *)
Theorem exercise_cell_clean (text : str) :
  Forall (fun row =>
            Str.strip (row_exercise row) = row_exercise row
            /\ ~ In ":"%char (row_exercise row)
            /\ ~ In "."%char (row_exercise row))
         (fst (transcribe_text_to_table text)).
Proof.
  rewrite transcribe_text_spec. simpl. apply Forall_forall.
  intros row Hin. unfold rows_of in Hin. apply in_map_iff in Hin.
  destruct Hin as [line [<- _]]. unfold row_of_line.
  rewrite row_exercise_line_row. split; [apply strip_idem|].
  split; intros H; apply strip_sub in H.
  - now apply split_nth_no_sep in H.
  - apply split_nth_sub in H. now apply normalized_no_dot in H.
Qed.

(** X8. No note holds a parenthesis: the note is cut at the first ['(']
    or [')'] that follows its opening ['(']. *)
Theorem note_has_no_parenthesis (text : str) :
  Forall (fun row => ~ In "("%char (row_note row)
                     /\ ~ In ")"%char (row_note row))
         (fst (transcribe_text_to_table text)).
Proof.
  rewrite transcribe_text_spec. simpl. apply Forall_forall.
  intros row Hin. unfold rows_of in Hin. apply in_map_iff in Hin.
  destruct Hin as [line [<- _]]. unfold row_of_line.
  rewrite row_note_line_row. unfold extra_info_of.
  destruct (Str.char_in "(" (nth 1 (Str.split ":" (normalized line)) []));
    [|split; intros []].
  split; intros H.
  - apply split_nth_sub in H. now apply split_nth_no_sep in H.
  - now apply split_nth_no_sep in H.
Qed.

(** ** Title/Date Extractor *)

Lemma lower_slash (c : ascii) :
  Ascii.eqb "/" (Chr.lower c) = Ascii.eqb "/" c.
Proof. each_char c. Qed.

Lemma lower_any_digit (s : str) :
  Str.any_digit (Str.lower s) = Str.any_digit s.
Proof.
  unfold Str.any_digit, Str.lower.
  induction s as [|c s IH]; cbn [map existsb]; [reflexivity|].
  now rewrite lower_isdigit, IH.
Qed.

Lemma lower_char_in_slash (s : str) :
  Str.char_in "/" (Str.lower s) = Str.char_in "/" s.
Proof.
  unfold Str.char_in, Str.lower.
  induction s as [|c s IH]; cbn [map existsb]; [reflexivity|].
  now rewrite lower_slash, IH.
Qed.

Lemma title_line_clean (line : str) :
  looks_like_title line = true ->
  Str.any_digit (Str.strip line) = false
  /\ Str.char_in "/" (Str.strip line) = false.
Proof.
  unfold looks_like_title.
  rewrite strip_lower, lower_any_digit, lower_char_in_slash.
  intros H. apply andb_true_iff in H. destruct H as [H1 H2].
  now apply negb_true_iff in H1, H2.
Qed.

Lemma find_none_iff {A : Type} (f : A -> bool) (l : list A) :
  find f l = None <-> Forall (fun x => f x = false) l.
Proof.
  induction l as [|x l IH]; simpl.
  - split; [constructor | reflexivity].
  - destruct (f x) eqn:E.
    + split; [discriminate|]. intros H. inversion H; congruence.
    + rewrite IH. split; [now constructor | now inversion 1].
Qed.

Lemma scanned_incl (ls : list str) (ht hd : bool) (l : str) :
  In l (scanned ht hd ls) -> In l ls.
Proof.
  revert ht hd. induction ls as [|x ls IH]; intros ht hd; simpl; [tauto|].
  intros [H|H]; [now left|]. right.
  destruct ((ht || names_title x) && (hd || looks_like_date x));
    [destruct H | eapply IH; exact H].
Qed.

(** While no date candidate has been read the loop does not stop. *)
Lemma scanned_without_date (ls : list str) (ht : bool) :
  Forall (fun x => looks_like_date x = false) (scanned ht false ls) ->
  scanned ht false ls = ls.
Proof.
  revert ht. induction ls as [|x ls IH]; intros ht H; [reflexivity|].
  cbn [scanned] in *. inversion H as [|? ? Hx Hrest]; subst.
  rewrite Hx in *. cbn [orb] in *. rewrite andb_false_r in *.
  f_equal. now apply IH.
Qed.

(** X9. The title slot never holds a digit or a ['/'] and is trimmed;
    it is empty, and ["Workout"] is used, exactly when no line of the
    text is a title candidate with a non-blank trimmed text. *)
Theorem title_slot_clean (text : str) :
  Str.any_digit (workout_title (scan_text text)) = false
  /\ Str.char_in "/" (workout_title (scan_text text)) = false
  /\ Str.strip (workout_title (scan_text text))
     = workout_title (scan_text text)
  /\ (workout_title (scan_text text) = []
      <-> Forall (fun line => names_title line = false)
                 (Str.split newline text)).
Proof.
  rewrite scan_text_spec. cbn [workout_title]. unfold first_title.
  destruct (find names_title (Str.split newline text)) as [l|] eqn:F.
  - apply find_some in F. destruct F as [Hin Hl].
    pose proof (names_title_strip _ Hl) as Hne. unfold names_title in Hl.
    apply andb_true_iff in Hl. destruct Hl as [Hl _].
    destruct (title_line_clean l Hl) as [H1 H2]. cbn [stripped].
    repeat split; try assumption; [apply strip_idem | |].
    + intros E. rewrite E in Hne. discriminate.
    + intros HF. rewrite Forall_forall in HF.
      specialize (HF l Hin). unfold names_title in HF.
      rewrite Hl in HF. simpl in HF. rewrite Hne in HF. discriminate.
  - cbn [stripped]. repeat split; try reflexivity.
    intros _. now apply find_none_iff.
Qed.

(** X10. The date slot is trimmed and comes from the text: it is empty,
    and ["Unknown Date"] is used, exactly when no line is a date
    candidate; otherwise it is the trimmed text of a date-candidate
    line. *)
Theorem date_slot_from_text (text : str) :
  Str.strip (workout_date (scan_text text)) = workout_date (scan_text text)
  /\ (workout_date (scan_text text) = []
      <-> Forall (fun line => looks_like_date line = false)
                 (Str.split newline text))
  /\ (workout_date (scan_text text) <> [] ->
      exists line,
        In line (Str.split newline text)
        /\ looks_like_date line = true
        /\ workout_date (scan_text text) = Str.strip line).
Proof.
  rewrite scan_text_spec. cbn [workout_date]. unfold last_date.
  set (lines := Str.split newline text).
  destruct (find looks_like_date (rev (scanned false false lines)))
    as [l|] eqn:F; cbn [stripped].
  - apply find_some in F. destruct F as [Hin Hl].
    apply in_rev, scanned_incl in Hin.
    pose proof (date_line_not_blank _ Hl) as Hne.
    split; [apply strip_idem|]. split.
    + split.
      * intros E. rewrite E in Hne. discriminate.
      * intros HF. rewrite Forall_forall in HF.
        rewrite (HF l Hin) in Hl. discriminate.
    + intros _. now exists l.
  - split; [reflexivity|]. split; [|congruence].
    split; [|reflexivity]. intros _.
    apply find_none_iff in F. apply Forall_rev in F.
    rewrite rev_involutive in F.
    pose proof (scanned_without_date lines false F) as E.
    now rewrite E in F.
Qed.

Lemma date_slot_from_text_witness :
  exists line,
    In line (Str.split newline (py "Leg Day" ++ nl ++ py " 3 March "))
    /\ looks_like_date line = true
    /\ workout_date (scan_text (py "Leg Day" ++ nl ++ py " 3 March "))
       = Str.strip line.
Proof.
  apply (proj2 (proj2 (date_slot_from_text
                         (py "Leg Day" ++ nl ++ py " 3 March ")))).
  vm_compute. discriminate.
Defined.

(** X11. Once a text fills both slots, whatever is appended after a
    newline is not read: the label stays the same. *)
Theorem label_ignores_trailing_text (text more : str) :
  both_found (scan_text text) = true ->
  extract_workout_title_and_date (text ++ nl ++ more)
  = extract_workout_title_and_date text.
Proof.
  intros H. unfold extract_workout_title_and_date. f_equal.
  unfold scan_text in *.
  change (text ++ nl ++ more) with (text ++ newline :: more).
  rewrite split_app_sep. now apply scan_lines_stops.
Qed.

Lemma label_ignores_trailing_text_witness :
  extract_workout_title_and_date
    ((py "Leg Day" ++ nl ++ py "3 March") ++ nl ++ py "Arm Day 4 April")
  = py "3 March - Leg Day".
Proof.
  rewrite label_ignores_trailing_text; reflexivity.
Defined.

Lemma title_slot_clean_witness :
  Forall (fun line => names_title line = false)
         (Str.split newline "12/03").
Proof.
  apply (proj1 (proj2 (proj2 (proj2 (title_slot_clean "12/03"))))).
  reflexivity.
Defined.

(** ** Workbook Composer *)

Lemma put_lookup_same (ws : Worksheet) (r c : nat) (cell : Cell) :
  lookup_cell (ws_cells (put_cell ws r c cell)) (r, c) = Some cell.
Proof.
  cbn [put_cell ws_cells lookup_cell]. unfold pos_eqb. cbn [fst snd].
  now rewrite !Nat.eqb_refl.
Qed.

Lemma put_lookup_other (ws : Worksheet) (r c r' c' : nat) (cell : Cell) :
  r <> r' \/ c <> c' ->
  lookup_cell (ws_cells (put_cell ws r' c' cell)) (r, c)
  = lookup_cell (ws_cells ws) (r, c).
Proof.
  intros Hne. cbn [put_cell ws_cells lookup_cell]. unfold pos_eqb.
  cbn [fst snd].
  destruct (r' =? r) eqn:E1; [|reflexivity].
  destruct (c' =? c) eqn:E2; [|reflexivity].
  apply Nat.eqb_eq in E1, E2. lia.
Qed.

Lemma write_headers_lookup_other (titles : list str) (ws : Worksheet)
      (row col r c : nat) :
  r <> row \/ c < col ->
  lookup_cell (ws_cells (write_headers ws row col titles)) (r, c)
  = lookup_cell (ws_cells ws) (r, c).
Proof.
  revert ws col. induction titles as [|t ts IH]; intros ws col H;
    [reflexivity|].
  cbn [write_headers]. rewrite IH by lia. apply put_lookup_other. lia.
Qed.

Lemma write_headers_lookup (titles : list str) (ws : Worksheet)
      (row col j : nat) :
  j < length titles ->
  lookup_cell (ws_cells (write_headers ws row col titles)) (row, col + j)
  = Some (header_cell (nth j titles [])).
Proof.
  revert ws col j. induction titles as [|t ts IH]; intros ws col j Hj;
    [simpl in Hj; lia|].
  cbn [write_headers]. destruct j as [|j].
  - rewrite Nat.add_0_r, write_headers_lookup_other by lia.
    apply put_lookup_same.
  - replace (col + S j) with (S col + j) by lia.
    apply IH. simpl in Hj. lia.
Qed.

Lemma write_row_lookup_other (row_data : list str) (ws : Worksheet)
      (columns : list str) (row col r c : nat) :
  r <> row \/ c < col ->
  lookup_cell (ws_cells (write_row ws columns row col row_data)) (r, c)
  = lookup_cell (ws_cells ws) (r, c).
Proof.
  revert ws col. induction row_data as [|v vs IH]; intros ws col H;
    [reflexivity|].
  cbn [write_row]. rewrite IH by lia. apply put_lookup_other. lia.
Qed.

Lemma write_row_lookup (row_data : list str) (ws : Worksheet)
      (columns : list str) (row col j : nat) :
  j < length row_data ->
  exists cell,
    lookup_cell (ws_cells (write_row ws columns row col row_data))
                (row, col + j) = Some cell
    /\ cell_value cell = data_value columns (col + j) (nth j row_data [])
    /\ cell_border cell = py "thin".
Proof.
  revert ws col j. induction row_data as [|v vs IH]; intros ws col j Hj;
    [simpl in Hj; lia|].
  cbn [write_row]. destruct j as [|j].
  - rewrite Nat.add_0_r, write_row_lookup_other by lia.
    rewrite put_lookup_same. eexists. split; [reflexivity|].
    split; reflexivity.
  - replace (col + S j) with (S col + j) by lia.
    apply IH. simpl in Hj. lia.
Qed.

Lemma write_rows_lookup_other (values : list (list str)) (ws : Worksheet)
      (columns : list str) (row r c : nat) :
  r < row \/ row + length values <= r ->
  lookup_cell (ws_cells (write_rows ws columns row values)) (r, c)
  = lookup_cell (ws_cells ws) (r, c).
Proof.
  revert ws row. induction values as [|v vs IH]; intros ws row H;
    [reflexivity|].
  cbn [write_rows]. cbn [length] in H. rewrite IH by lia.
  apply write_row_lookup_other. lia.
Qed.

Lemma write_rows_lookup (values : list (list str)) (ws : Worksheet)
      (columns : list str) (row i j : nat) :
  i < length values ->
  j < length (nth i values []) ->
  exists cell,
    lookup_cell (ws_cells (write_rows ws columns row values))
                (row + i, 1 + j) = Some cell
    /\ cell_value cell
       = data_value columns (1 + j) (nth j (nth i values []) [])
    /\ cell_border cell = py "thin".
Proof.
  revert ws row i. induction values as [|v vs IH]; intros ws row i Hi Hj;
    [simpl in Hi; lia|].
  cbn [write_rows]. destruct i as [|i].
  - rewrite Nat.add_0_r, write_rows_lookup_other by lia.
    now apply write_row_lookup.
  - replace (row + S i) with (S row + i) by lia.
    apply IH; [simpl in Hi; lia | exact Hj].
Qed.

(** One iteration writes the title at [(start_row, 1)], the headers in
    the next row and the data rows below, and nothing else. *)
Lemma write_table_lookup_other (t : DfTuple) (ws : Worksheet)
      (start_row r c : nat) :
  r < start_row
  \/ snd (write_table (ws, start_row) t) <= r + 3
  \/ (r = start_row /\ c <> 1) ->
  lookup_cell (ws_cells (fst (write_table (ws, start_row) t))) (r, c)
  = lookup_cell (ws_cells ws) (r, c).
Proof.
  destruct t as [df name label|n]; cbn [write_table fst snd];
    [|reflexivity].
  intros H. rewrite write_rows_lookup_other by lia.
  rewrite write_headers_lookup_other by lia.
  unfold write_title. cbn [merge_cells ws_cells].
  apply put_lookup_other. lia.
Qed.

Lemma write_table_snd (t : DfTuple) (ws : Worksheet) (start_row : nat) :
  snd (write_table (ws, start_row) t) = next_start_row start_row [t].
Proof. now destruct t. Qed.

Lemma fold_write_table_snd (dataframes : list DfTuple) (ws : Worksheet)
      (start_row : nat) :
  snd (fold_left write_table dataframes (ws, start_row))
  = next_start_row start_row dataframes.
Proof.
  revert ws start_row.
  induction dataframes as [|t ts IH]; intros ws start_row; [reflexivity|].
  cbn [fold_left]. destruct t as [df name label|n];
    cbn [write_table next_start_row]; apply IH.
Qed.

Lemma next_start_row_le (dataframes : list DfTuple) (start_row : nat) :
  start_row <= next_start_row start_row dataframes.
Proof.
  revert start_row. induction dataframes as [|t ts IH]; intros s;
    [apply Nat.le_refl|].
  destruct t as [df name label|n]; cbn [next_start_row];
    [|apply IH].
  etransitivity; [|apply IH]. lia.
Qed.

Lemma next_start_row_app (l1 l2 : list DfTuple) (start_row : nat) :
  next_start_row start_row (l1 ++ l2)
  = next_start_row (next_start_row start_row l1) l2.
Proof.
  revert start_row. induction l1 as [|t ts IH]; intros s; [reflexivity|].
  destruct t; cbn [app next_start_row]; apply IH.
Qed.

(** The loop writes only between its first [start_row] and the three
    spacing rows in front of its last [start_row]. *)
Lemma fold_write_table_lookup_other (dataframes : list DfTuple)
      (ws : Worksheet) (start_row r c : nat) :
  r < start_row \/ next_start_row start_row dataframes <= r + 3 ->
  lookup_cell
    (ws_cells (fst (fold_left write_table dataframes (ws, start_row))))
    (r, c)
  = lookup_cell (ws_cells ws) (r, c).
Proof.
  revert ws start_row.
  induction dataframes as [|t ts IH]; intros ws s H; [reflexivity|].
  cbn [fold_left].
  pose proof (write_table_snd t ws s) as Hs.
  pose proof (next_start_row_le [t] s) as H1.
  pose proof (next_start_row_le ts (next_start_row s [t])) as H2.
  change (t :: ts) with ([t] ++ ts) in H.
  rewrite next_start_row_app in H.
  destruct (write_table (ws, s) t) as [ws' s'] eqn:E. cbn [snd] in Hs.
  subst s'. rewrite IH by lia.
  change ws' with (fst (ws', next_start_row s [t])). rewrite <- E.
  apply write_table_lookup_other. rewrite E. cbn [snd]. lia.
Qed.

Lemma create_excel_split (pre post : list DfTuple) (t : DfTuple) :
  create_excel (pre ++ t :: post)
  = fst (fold_left write_table post
           (write_table
              (fst (fold_left write_table pre (empty_sheet, 1)),
               next_start_row 1 pre) t)).
Proof.
  unfold create_excel. rewrite fold_left_app. cbn [fold_left].
  rewrite <- (fold_write_table_snd pre empty_sheet 1).
  now destruct (fold_left write_table pre (empty_sheet, 1)).
Qed.

(** Inside the block of one tuple the sheet is the one that tuple's
    iteration left: later iterations write further down. *)
Lemma create_excel_block_lookup (pre post : list DfTuple) (t : DfTuple)
      (q c : nat) :
  q < next_start_row (next_start_row 1 pre) [t] ->
  lookup_cell (ws_cells (create_excel (pre ++ t :: post))) (q, c)
  = lookup_cell
      (ws_cells
         (fst (write_table
                 (fst (fold_left write_table pre (empty_sheet, 1)),
                  next_start_row 1 pre) t)))
      (q, c).
Proof.
  intros Hq. rewrite create_excel_split.
  pose proof (write_table_snd t
                (fst (fold_left write_table pre (empty_sheet, 1)))
                (next_start_row 1 pre)) as Hs.
  destruct (write_table
              (fst (fold_left write_table pre (empty_sheet, 1)),
               next_start_row 1 pre) t) as [ws2 s'].
  cbn [snd] in Hs. subst s'. cbn [fst].
  apply fold_write_table_lookup_other. now left.
Qed.

Lemma rows_below_pre_untouched (pre : list DfTuple) (q c : nat) :
  next_start_row 1 pre <= q ->
  lookup_cell
    (ws_cells (fst (fold_left write_table pre (empty_sheet, 1)))) (q, c)
  = None.
Proof.
  intros Hq. rewrite fold_write_table_lookup_other by lia. reflexivity.
Qed.

(** X12. Header cells can be read back.  For the tuple at any place of
    [dataframes], the row under its title holds, in column [j + 1], the
    [j]-th column title, bold, centred both ways, filled with the accent
    colour and with a thin border; later tables do not overwrite it. *)
Theorem header_cells_in_place
        (pre post : list DfTuple) (df : DataFrame) (name label : str)
        (j : nat) :
  j < length (df_columns df) ->
  lookup_cell
    (ws_cells (create_excel (pre ++ Tuple3 df name label :: post)))
    (next_start_row 1 pre + 1, 1 + j)
  = Some (header_cell (nth j (df_columns df) [])).
Proof.
  intros Hj. rewrite create_excel_block_lookup
    by (cbn [next_start_row]; lia).
  cbn [write_table fst].
  rewrite write_rows_lookup_other by lia.
  now apply write_headers_lookup.
Qed.

Lemma header_cells_in_place_witness :
  lookup_cell
    (ws_cells (create_excel ([] ++ [handler_tuple 0 "Squat: 8/8"])))
    (next_start_row 1 [] + 1, 1 + 1)
  = Some (header_cell "Set 1").
Proof.
  apply (header_cells_in_place [] [] (make_frame "Squat: 8/8")
                               (py "Sheet" ++ decimal_of_nat (0 + 1))
                               (extract_workout_title_and_date "Squat: 8/8")
                               1).
  vm_compute. lia.
Defined.

(** X13. Data cells can be read back.  The [j]-th value of the [i]-th
    row of a frame is found two rows under the title plus [i], in column
    [j + 1], with a thin border; its value went through the set-column
    coercion when the column title starts with ["Set"] and is the string
    itself otherwise. *)
Theorem data_cells_in_place
        (pre post : list DfTuple) (df : DataFrame) (name label : str)
        (i j : nat) :
  i < length (df_values df) ->
  j < length (nth i (df_values df) []) ->
  exists cell,
    lookup_cell
      (ws_cells (create_excel (pre ++ Tuple3 df name label :: post)))
      (next_start_row 1 pre + 1 + 1 + i, 1 + j) = Some cell
    /\ cell_value cell
       = data_value (df_columns df) (1 + j)
                    (nth j (nth i (df_values df) []) [])
    /\ cell_border cell = py "thin".
Proof.
  intros Hi Hj. rewrite create_excel_block_lookup
    by (cbn [next_start_row]; lia).
  cbn [write_table fst]. now apply write_rows_lookup.
Qed.

Lemma data_cells_in_place_witness :
  exists cell,
    lookup_cell
      (ws_cells (create_excel ([] ++ [handler_tuple 0 "Squat: 8/8"])))
      (next_start_row 1 [] + 1 + 1 + 0, 1 + 1) = Some cell
    /\ cell_value cell = VInt 8.
Proof.
  destruct (data_cells_in_place [] [] (make_frame "Squat: 8/8")
              (py "Sheet" ++ decimal_of_nat (0 + 1))
              (extract_workout_title_and_date "Squat: 8/8") 0 1)
    as [cell [H1 [H2 _]]].
  - vm_compute. lia.
  - vm_compute. lia.
  - exists cell. split; [exact H1|]. rewrite H2. reflexivity.
Defined.

(** X14. Around a block nothing is written: in the title row only
    column 1 is addressed, so the cells under the merged title stay
    untouched, and the three rows after the last data row of a block
    are never addressed, whatever tables come before or after. *)
Theorem title_row_and_spacing_blank
        (pre post : list DfTuple) (df : DataFrame) (name label : str)
        (c k : nat) :
  (c <> 1 ->
   lookup_cell
     (ws_cells (create_excel (pre ++ Tuple3 df name label :: post)))
     (next_start_row 1 pre, c) = None)
  /\ (k < 3 ->
      lookup_cell
        (ws_cells (create_excel (pre ++ Tuple3 df name label :: post)))
        (next_start_row 1 pre + 1 + 1 + length (df_values df) + k, c)
      = None).
Proof.
  split; intros H.
  - rewrite create_excel_block_lookup by (cbn [next_start_row]; lia).
    rewrite write_table_lookup_other by (right; right; now split).
    apply rows_below_pre_untouched. lia.
  - rewrite create_excel_block_lookup by (cbn [next_start_row]; lia).
    rewrite write_table_lookup_other
      by (right; left; cbn [write_table snd]; lia).
    apply rows_below_pre_untouched. lia.
Qed.

Lemma title_row_and_spacing_blank_witness :
  lookup_cell
    (ws_cells (create_excel ([] ++ [handler_tuple 0 "Squat: 8/8"])))
    (next_start_row 1 [], 2) = None
  /\ lookup_cell
       (ws_cells (create_excel ([] ++ [handler_tuple 0 "Squat: 8/8"])))
       (next_start_row 1 [] + 1 + 1
        + length (df_values (make_frame "Squat: 8/8")) + 2, 2) = None.
Proof.
  pose proof (title_row_and_spacing_blank
                [] [] (make_frame "Squat: 8/8")
                (py "Sheet" ++ decimal_of_nat (0 + 1))
                (extract_workout_title_and_date "Squat: 8/8") 2 2)
    as [H1 H2].
  split; [apply H1; lia | apply H2; lia].
Defined.

Lemma title_blocks_rows (dataframes : list DfTuple) (start_row : nat) :
  Forall (fun b => title_range (fst b) /\ start_row <= range_row (fst b))
         (title_blocks start_row dataframes)
  /\ StronglySorted lt
       (map range_row (map fst (title_blocks start_row dataframes)))
  /\ length (title_blocks start_row dataframes)
     = length (filter unpacks dataframes).
Proof.
  revert start_row. induction dataframes as [|t ts IH]; intros s.
  - simpl. repeat split; constructor.
  - destruct t as [df name label|n]; cbn [title_blocks filter unpacks];
      [|apply IH].
    destruct (IH (s + 1 + 1 + (length (df_values df) + 3)))
      as [HF [HS HL]].
    split; [|split].
    + constructor; [simpl; lia|].
      eapply Forall_impl; [|exact HF]. simpl. intros b [H1 H2].
      split; [exact H1 | lia].
    + cbn [map fst range_row]. constructor; [exact HS|].
      rewrite Forall_map, Forall_map.
      eapply Forall_impl; [|exact HF]. simpl. intros b [_ H2]. lia.
    + simpl. now rewrite HL.
Qed.

(** X15. The sheet has one merged range per tuple that unpacks; every
    range lies in a single row and starts in column 1, and the rows of
    the ranges increase strictly, so no two merged ranges overlap. *)
Theorem merged_ranges_disjoint (dataframes : list DfTuple) :
  length (ws_merged (create_excel dataframes))
  = length (filter unpacks dataframes)
  /\ Forall title_range (ws_merged (create_excel dataframes))
  /\ StronglySorted lt (map range_row (ws_merged (create_excel dataframes))).
Proof.
  destruct (create_excel_blocks dataframes) as [-> _].
  destruct (title_blocks_rows dataframes 1) as [HF [HS HL]].
  split; [now rewrite length_map|]. split; [|exact HS].
  rewrite Forall_map. eapply Forall_impl; [|exact HF]. now intros b [H _].
Qed.

(** X16. A tuple that does not unpack is skipped: the sheet is the one
    composed from the remaining tuples. *)
Theorem malformed_tuple_skipped
        (l1 l2 : list DfTuple) (arity : nat) :
  create_excel (l1 ++ TupleOther arity :: l2) = create_excel (l1 ++ l2).
Proof.
  unfold create_excel. rewrite !fold_left_app. cbn [fold_left].
  now destruct (fold_left write_table l1 (empty_sheet, 1)).
Qed.

(** X17. The sheet name carried by a tuple is never used: every table
    goes to the one sheet, whatever the names are. *)
Theorem sheet_names_ignored (f : str -> str) (dataframes : list DfTuple) :
  create_excel (map (rename_sheet f) dataframes) = create_excel dataframes.
Proof.
  unfold create_excel. generalize (empty_sheet, 1).
  induction dataframes as [|t ts IH]; intros st; [reflexivity|].
  cbn [map fold_left]. rewrite IH. f_equal.
  destruct st as [ws r]. now destruct t.
Qed.

Lemma coerce_kept_piece (cell : str) :
  numeric_or_empty cell -> int_or_unchanged cell.
Proof.
  intros [->|D]; [now right|].
  unfold int_or_unchanged, coerce_set_value.
  rewrite D, (py_int_digit_string cell D).
  destruct (forallb Chr.isdecimal cell); [|right; reflexivity].
  destruct (Num.max_str_digits <? length cell);
    [right | left; eexists]; reflexivity.
Qed.

(** X18. The set cells the Table Builder produces never become floats in
    the workbook: each is written as an integer, or unchanged (the empty
    marker, or a digit string [int] rejects). *)
Theorem table_cells_never_float (text : str) :
  Forall (fun row => Forall int_or_unchanged (row_sets row))
         (fst (transcribe_text_to_table text)).
Proof.
  rewrite transcribe_text_spec. cbn [fst].
  eapply Forall_impl; [|apply rows_of_numeric].
  intros row H. eapply Forall_impl; [|exact H].
  apply coerce_kept_piece.
Qed.

(** X19. In the frames of the handler the exercise column and the note
    column are written as they are, digit strings included: only the
    columns titled ["Set k"] are coerced. *)
Theorem outer_columns_not_coerced (m : nat) (v : str) :
  data_value (table_columns m) 1 v = VStr v
  /\ data_value (table_columns m) (m + 2) v = VStr v
  /\ Forall (fun title => Str.starts_with "Set" title = true)
            (removelast (tl (table_columns m))).
Proof.
  destruct (outer_columns_verbatim m v) as [H1 H2].
  split; [exact H1|]. split; [exact H2|].
  unfold table_columns. cbn [app tl]. rewrite removelast_last.
  apply Forall_forall. intros title Hin. apply in_map_iff in Hin.
  destruct Hin as [j [<- _]]. reflexivity.
Qed.

Lemma write_headers_lookup_beyond (titles : list str) (ws : Worksheet)
      (row col c : nat) :
  col + length titles <= c ->
  lookup_cell (ws_cells (write_headers ws row col titles)) (row, c)
  = lookup_cell (ws_cells ws) (row, c).
Proof.
  revert ws col. induction titles as [|t ts IH]; intros ws col H;
    [reflexivity|].
  cbn [write_headers]. cbn [length] in H. rewrite IH by lia.
  apply put_lookup_other. lia.
Qed.

Lemma title_blocks_app (l1 l2 : list DfTuple) (start_row : nat) :
  title_blocks start_row (l1 ++ l2)
  = title_blocks start_row l1
    ++ title_blocks (next_start_row start_row l1) l2.
Proof.
  revert start_row. induction l1 as [|t ts IH]; intros s; [reflexivity|].
  destruct t as [df name label|n]; cbn [app title_blocks next_start_row];
    [|apply IH].
  now rewrite IH.
Qed.

Lemma no_slash_frame (text : str) :
  ~ In "/"%char text ->
  make_frame text
  = {| df_columns := [py "Exercise"; py "Extra Info"]; df_values := [] |}.
Proof.
  intros H. unfold make_frame. rewrite transcribe_text_spec.
  unfold transcribe_text_to_table.
  rewrite transcribe_lines_spec. cbn [snd]. unfold rows_of.
  rewrite filter_none; [reflexivity|].
  eapply Forall_impl; [|apply (split_pieces newline text)].
  intros line [_ Hsub]. apply qualifies_false_iff. left.
  intros Hin. apply H. now apply Hsub.
Qed.

(** X20. An upload whose text has no ['/'] still takes its place in the
    sheet [create_excel] composes, wherever it stands among the
    uploads.  Its title cell holds its label and is merged over columns
    1 to 3; the row below holds the two headers ["Exercise"] and
    ["Extra Info"] and nothing else; the three rows under the headers
    are never addressed; and the titles of the uploads behind it start
    five rows under its own. *)
Theorem block_without_rows
        (pre post : list DfTuple) (i : nat) (text : str) :
  ~ In "/"%char text ->
  (exists cell,
      lookup_cell
        (ws_cells (create_excel (pre ++ handler_tuple i text :: post)))
        (next_start_row 1 pre, 1) = Some cell
      /\ cell_value cell = VStr (extract_workout_title_and_date text))
  /\ lookup_cell
       (ws_cells (create_excel (pre ++ handler_tuple i text :: post)))
       (next_start_row 1 pre + 1, 1) = Some (header_cell "Exercise")
  /\ lookup_cell
       (ws_cells (create_excel (pre ++ handler_tuple i text :: post)))
       (next_start_row 1 pre + 1, 2) = Some (header_cell "Extra Info")
  /\ (forall c, 3 <= c ->
        lookup_cell
          (ws_cells (create_excel (pre ++ handler_tuple i text :: post)))
          (next_start_row 1 pre + 1, c) = None)
  /\ (forall c k, k < 3 ->
        lookup_cell
          (ws_cells (create_excel (pre ++ handler_tuple i text :: post)))
          (next_start_row 1 pre + 1 + 1 + k, c) = None)
  /\ ws_merged (create_excel (pre ++ handler_tuple i text :: post))
     = ws_merged (create_excel pre)
       ++ (next_start_row 1 pre, 1, next_start_row 1 pre, 3)
       :: map fst (title_blocks (next_start_row 1 pre + 5) post).
Proof.
  intros H. unfold handler_tuple. rewrite (no_slash_frame text H).
  set (df := {| df_columns := [py "Exercise"; py "Extra Info"];
                df_values := [] |}).
  set (name := py "Sheet" ++ decimal_of_nat (i + 1)).
  set (label := extract_workout_title_and_date text).
  set (r := next_start_row 1 pre).
  assert (Hblock : forall q c, q < r + 5 ->
            lookup_cell
              (ws_cells (create_excel (pre ++ Tuple3 df name label :: post)))
              (q, c)
            = lookup_cell
                (ws_cells
                   (write_headers
                      (write_title
                         (fst (fold_left write_table pre (empty_sheet, 1)))
                         r df label)
                      (r + 1) 1 (df_columns df)))
                (q, c)).
  { intros q c Hq. rewrite create_excel_block_lookup
      by (cbn [next_start_row df_values df length]; fold r; lia).
    reflexivity. }
  repeat split.
  - rewrite Hblock by lia.
    rewrite write_headers_lookup_other by lia.
    unfold write_title. cbn [merge_cells ws_cells].
    rewrite put_lookup_same. eexists. split; reflexivity.
  - rewrite Hblock by lia.
    apply (write_headers_lookup (df_columns df) _ (r + 1) 1 0).
    cbn. lia.
  - rewrite Hblock by lia.
    apply (write_headers_lookup (df_columns df) _ (r + 1) 1 1).
    cbn. lia.
  - intros c Hc. rewrite Hblock by lia.
    rewrite write_headers_lookup_beyond by (cbn; lia).
    unfold write_title. cbn [merge_cells ws_cells].
    rewrite put_lookup_other by lia.
    apply rows_below_pre_untouched. fold r. lia.
  - intros c k Hk. rewrite Hblock by lia.
    rewrite write_headers_lookup_other by lia.
    unfold write_title. cbn [merge_cells ws_cells].
    rewrite put_lookup_other by lia.
    apply rows_below_pre_untouched. fold r. lia.
  - destruct (create_excel_blocks (pre ++ Tuple3 df name label :: post))
      as [-> _].
    destruct (create_excel_blocks pre) as [-> _].
    rewrite title_blocks_app, map_app. fold r.
    cbn [title_blocks map fst]. unfold df. cbn [df_columns df_values length].
    replace (r + 1 + 1 + (0 + 3)) with (r + 5) by lia. reflexivity.
Qed.

Lemma block_without_rows_witness :
  ws_merged (create_excel ([] ++ handler_tuple 0 "" :: []))
  = ws_merged (create_excel [])
    ++ (next_start_row 1 [], 1, next_start_row 1 [], 3)
    :: map fst (title_blocks (next_start_row 1 [] + 5) []).
Proof.
  apply (block_without_rows [] [] 0 ""). intros [].
Defined.

(** ** HTTP handler *)

Section HandlerProperties.

Variable save : Upload -> str -> option str.
Variable ocr : Upload -> str -> str + str.
Variable workbook_error : list DfTuple -> option str.

Lemma process_files_error_prefix
      (pre post : list Upload) (i : nat) (dfs : list DfTuple)
      (log : list Event) (msg : str) (log' : list Event) :
  process_files save ocr i pre dfs log = (inl msg, log') ->
  process_files save ocr i (pre ++ post) dfs log = (inl msg, log').
Proof.
  revert i dfs log. induction pre as [|f fs IH]; intros i dfs log H.
  - discriminate H.
  - cbn [app process_files] in *.
    destruct (save f (path_join UPLOAD_FOLDER (filename f)));
      [exact H|].
    destruct (ocr f (path_join UPLOAD_FOLDER (filename f)));
      [|exact H].
    now apply IH.
Qed.

Lemma process_files_no_compose
      (todo : list Upload) (i : nat) (dfs : list DfTuple)
      (log : list Event) :
  existsb is_compose (snd (process_files save ocr i todo dfs log))
  = existsb is_compose log.
Proof.
  revert i dfs log. induction todo as [|f fs IH]; intros i dfs log;
    [reflexivity|].
  cbn [process_files].
  destruct (save f (path_join UPLOAD_FOLDER (filename f))).
  - cbn [snd]. rewrite existsb_app. cbn. now rewrite orb_false_r.
  - destruct (ocr f (path_join UPLOAD_FOLDER (filename f))).
    + rewrite IH, !existsb_app. cbn. now rewrite !orb_false_r.
    + cbn [snd]. rewrite !existsb_app. cbn. now rewrite !orb_false_r.
Qed.

(** X21. A failure in the loop ends the request where it happens.  If
    the handler answers 500 before [create_excel] is called, that is
    because staging or OCR of an upload raised, it gives the same
    answer and the same log when more uploads follow: the files behind
    the failing one are neither staged nor read. *)
Theorem failure_is_final
        (pre post : list Upload) (body : list (str * str))
        (log : list Event) :
  index save ocr workbook_error {| method := POST; files := pre |}
  = (Json body 500, log) ->
  existsb is_compose log = false ->
  index save ocr workbook_error {| method := POST; files := pre ++ post |}
  = (Json body 500, log).
Proof.
  unfold index. cbn [method files].
  destruct pre as [|f fs]; [discriminate|]. cbn [app].
  pose proof (process_files_no_compose (f :: fs) 0 [] []) as Hnc.
  destruct (process_files save ocr 0 (f :: fs) [] [])
    as [[msg|dfs] log0] eqn:E.
  - intros H _.
    change (f :: fs ++ post) with ((f :: fs) ++ post).
    now rewrite (process_files_error_prefix (f :: fs) post 0 [] []
                                            msg log0 E).
  - cbn [snd] in Hnc. destruct (workbook_error dfs); [|discriminate].
    intros H Hlog. injection H as _ <-.
    rewrite !existsb_app in Hlog. cbn in Hlog.
    rewrite orb_true_r in Hlog. discriminate.
Qed.

Lemma process_files_success
      (todo : list Upload) (texts : list str) (i : nat)
      (dfs : list DfTuple) (log : list Event) :
  Forall2 (fun file text =>
             save file (staged_path file) = None
             /\ ocr file (staged_path file) = inl text) todo texts ->
  exists log',
    process_files save ocr i todo dfs log
    = (inr (dfs ++ handler_tuples i texts), log').
Proof.
  intros H. revert i dfs log.
  induction H as [|f t fs ts [Hs Ho] _ IH]; intros i dfs log.
  - exists log. cbn. now rewrite app_nil_r.
  - cbn [process_files]. unfold staged_path in Hs, Ho. rewrite Hs, Ho.
    match goal with
    | |- context [process_files save ocr (S i) fs ?d ?l] =>
        destruct (IH (S i) d l) as [log' E]
    end.
    exists log'. rewrite E. rewrite <- app_assoc. reflexivity.
Qed.

(** X22. When every upload is staged and read, [create_excel] is given
    one tuple per upload, in upload order, each built from the text OCR
    gave for that upload.  If the spreadsheet libraries raise nothing
    the answer is that workbook, sent as ["workout.xlsx"], with one
    merged title per upload; if they raise, the answer is 500 with the
    message of the exception. *)
Theorem all_uploads_compose
        (uploads : list Upload) (texts : list str) :
  uploads <> [] ->
  Forall2 (fun file text =>
             save file (staged_path file) = None
             /\ ocr file (staged_path file) = inl text) uploads texts ->
  (workbook_error (handler_tuples 0 texts) = None ->
   fst (index save ocr workbook_error
              {| method := POST; files := uploads |})
   = SendFile (create_excel (handler_tuples 0 texts))
              "workout.xlsx" xlsx_mimetype)
  /\ (forall msg,
        workbook_error (handler_tuples 0 texts) = Some msg ->
        fst (index save ocr workbook_error
                   {| method := POST; files := uploads |})
        = Json [(py "error", msg)] 500)
  /\ length (ws_merged (create_excel (handler_tuples 0 texts)))
     = length uploads.
Proof.
  intros Hne H.
  assert (Hidx : forall r,
            (match workbook_error (handler_tuples 0 texts) with
             | Some msg => Json [(py "error", msg)] 500
             | None => SendFile (create_excel (handler_tuples 0 texts))
                                "workout.xlsx" xlsx_mimetype
             end) = r ->
            fst (index save ocr workbook_error
                       {| method := POST; files := uploads |}) = r).
  { intros r <-. unfold index. cbn [method files].
    destruct uploads as [|f fs]; [congruence|].
    destruct (process_files_success (f :: fs) texts 0 [] [] H)
      as [log' ->].
    cbn [app]. now destruct (workbook_error (handler_tuples 0 texts)). }
  split; [|split].
  - intros E. apply Hidx. now rewrite E.
  - intros msg E. apply Hidx. now rewrite E.
  - destruct (create_excel_blocks (handler_tuples 0 texts)) as [-> _].
    rewrite handler_blocks, length_map.
    apply Forall2_length in H. rewrite H. clear.
    generalize 1. induction texts as [|t ts IH]; intros s;
      [reflexivity|].
    cbn [title_merges length]. now rewrite IH.
Qed.

Lemma process_files_counts
      (todo : list Upload) (i : nat) (dfs : list DfTuple)
      (log : list Event) :
  exists a b,
    length (filter is_ocr (snd (process_files save ocr i todo dfs log)))
    = length (filter is_ocr log) + a
    /\ length (filter is_save (snd (process_files save ocr i todo dfs log)))
       = length (filter is_save log) + b
    /\ a <= b /\ b <= length todo
    /\ (forall dfs',
          fst (process_files save ocr i todo dfs log) = inr dfs' ->
          a = length todo /\ b = length todo).
Proof.
  revert i dfs log. induction todo as [|f fs IH]; intros i dfs log.
  - exists 0, 0. cbn. split; [lia|]. split; [lia|]. split; [lia|].
    split; [lia|]. intros _ _. split; reflexivity.
  - cbn [process_files].
    destruct (save f (path_join UPLOAD_FOLDER (filename f))).
    + exists 0, 1. cbn [snd fst]. rewrite !filter_app, !length_app. cbn.
      split; [lia|]. split; [lia|]. split; [lia|]. split; [lia|].
      intros ? E. discriminate E.
    + destruct (ocr f (path_join UPLOAD_FOLDER (filename f))).
      * match goal with
        | |- context [process_files save ocr (S i) fs ?d ?l] =>
            destruct (IH (S i) d l) as [a [b [Ha [Hb [Hab [Hbn Hfull]]]]]]
        end.
        exists (S a), (S b). rewrite Ha, Hb.
        rewrite !filter_app, !length_app. cbn.
        split; [lia|]. split; [lia|]. split; [lia|]. split; [lia|].
        intros dfs' E. destruct (Hfull dfs' E). lia.
      * exists 1, 1. cbn [snd fst]. rewrite !filter_app, !length_app. cbn.
        split; [lia|]. split; [lia|]. split; [lia|]. split; [lia|].
        intros ? E. discriminate E.
Qed.

(** X23. The composer never runs on part of a batch, and no workbook
    goes out without it.  If the log of a request holds a call of
    [create_excel], every upload of the request was staged and read
    before; and if the answer is the file, the log holds that call. *)
Theorem composes_after_full_batch (request : Request) :
  (existsb is_compose (snd (index save ocr workbook_error request)) = true ->
   length (filter is_ocr (snd (index save ocr workbook_error request)))
   = length (files request)
   /\ length (filter is_save (snd (index save ocr workbook_error request)))
      = length (files request))
  /\ (sends_file (fst (index save ocr workbook_error request)) = true ->
      existsb is_compose (snd (index save ocr workbook_error request))
      = true).
Proof.
  unfold index. destruct (method request); [split; discriminate|].
  destruct (files request) as [|f fs]; [split; discriminate|].
  pose proof (process_files_no_compose (f :: fs) 0 [] []) as Hnc.
  destruct (process_files_counts (f :: fs) 0 [] [])
    as [a [b [Ha [Hb [_ [_ Hfull]]]]]].
  destruct (process_files save ocr 0 (f :: fs) [] []) as [[msg|dfs] log].
  - cbn [fst snd sends_file] in *. split; [|discriminate].
    rewrite existsb_app, Hnc. cbn. discriminate.
  - cbn [fst snd] in *. destruct (Hfull dfs eq_refl) as [-> ->].
    destruct (workbook_error dfs); cbn [fst snd sends_file].
    + split; [|discriminate]. intros _.
      rewrite !filter_app, !length_app, Ha, Hb. cbn. lia.
    + split.
      * intros _. rewrite !filter_app, !length_app, Ha, Hb. cbn. lia.
      * intros _. rewrite existsb_app. cbn. apply orb_true_r.
Qed.

(** X24. In any request OCR runs at most once per staged file, and no
    more files are staged than were uploaded. *)
Theorem ocr_calls_bounded (request : Request) :
  length (filter is_ocr (snd (index save ocr workbook_error request)))
  <= length (filter is_save (snd (index save ocr workbook_error request)))
  /\ length (filter is_save (snd (index save ocr workbook_error request)))
     <= length (files request).
Proof.
  unfold index. destruct (method request); [cbn; lia|].
  destruct (files request) as [|f fs]; [cbn; lia|].
  destruct (process_files_counts (f :: fs) 0 [] [])
    as [a [b [Ha [Hb [Hab [Hbn _]]]]]].
  destruct (process_files save ocr 0 (f :: fs) [] []) as [[msg|dfs] log];
    [|destruct (workbook_error dfs)];
    cbn [snd] in *; rewrite !filter_app, !length_app; cbn in *; lia.
Qed.

End HandlerProperties.

Lemma failure_is_final_witness :
  index save_ok (fun _ _ => inr (py "quota exceeded")) workbook_ok
        {| method := POST;
           files := files one_squat_upload ++ files one_squat_upload |}
  = (Json [(py "error", py "quota exceeded")] 500,
     [PrintSaving "squat.png" "uploads/squat.png";
      SaveFile "uploads/squat.png"; CallOcr "uploads/squat.png";
      PrintError "quota exceeded"]).
Proof.
  apply (failure_is_final save_ok (fun _ _ => inr (py "quota exceeded"))
                          workbook_ok
                          (files one_squat_upload)
                          (files one_squat_upload)).
  - reflexivity.
  - reflexivity.
Defined.

Lemma all_uploads_compose_witness :
  fst (index save_ok ocr_echo workbook_ok one_squat_upload)
  = SendFile (create_excel (handler_tuples 0 [py "Squat: 8/8"]))
             "workout.xlsx" xlsx_mimetype.
Proof.
  apply (proj1 (all_uploads_compose save_ok ocr_echo workbook_ok
                                    (files one_squat_upload)
                                    [py "Squat: 8/8"]
                                    ltac:(discriminate)
                                    ltac:(repeat constructor))).
  reflexivity.
Defined.

Lemma composes_after_full_batch_witness :
  length (filter is_ocr
                 (snd (index save_ok ocr_echo workbook_ok one_squat_upload)))
  = length (files one_squat_upload)
  /\ existsb is_compose
             (snd (index save_ok ocr_echo workbook_ok one_squat_upload))
     = true.
Proof.
  pose proof (composes_after_full_batch save_ok ocr_echo workbook_ok
                                        one_squat_upload) as [H1 H2].
  split.
  - apply H1. reflexivity.
  - apply H2. reflexivity.
Defined.
